(** * Drawpile dedicated server: the listener / lifecycle controller

    A shallow embedding of [src/server/multiserver.cpp] (class
    [server::MultiServer]) and the properties of its specification.

    The C++ object is a record; every member function is a function in a
    small state-and-fault monad over that record.  Calls that leave the
    class (the logger, the listening socket, the session registry, the
    init-system notifier, signals) are journalled as [Effect]s so that
    theorems can speak about what was, and what was not, invoked.  Answers
    that come from outside the process (the OS, the filesystem, the clock,
    the configuration store) are read from an [Env] record. *)

From Stdlib Require Import ZArith List String Ascii Bool Lia DecimalString.
Import ListNotations.

Local Open Scope string_scope.
Local Open Scope list_scope.
Local Open Scope Z_scope.

(** ** Strings: the QString operations the source uses *)

Module QString.

Definition isEmpty (s : string) : bool :=
  match s with EmptyString => true | String _ _ => false end.

(** [s.startsWith(p)] *)
Definition startsWith (s p : string) : bool := String.prefix p s.

(** [s.mid(n)]: the part of [s] from position [n] to the end. *)
Fixpoint mid (s : string) (n : nat) : string :=
  match n, s with
  | O, _ => s
  | S _, EmptyString => EmptyString
  | S k, String _ rest => mid rest k
  end.

(** [s.replace(before, after)]: every occurrence of [before], found left to
    right and without overlap, is replaced by [after]; inserted text is not
    scanned again.  [skip] counts the characters of a matched occurrence
    still to be dropped. *)
Fixpoint replace_from (before after s : string) (skip : nat) : string :=
  match s with
  | EmptyString => EmptyString
  | String c rest =>
      match skip with
      | S k => replace_from before after rest k
      | O =>
          if String.prefix before s
          then String.append after
                 (replace_from before after rest (Nat.pred (String.length before)))
          else String c (replace_from before after rest O)
      end
  end.

Definition replace (s before after : string) : string :=
  if isEmpty before then s else replace_from before after s O.

(** [QString::number(n)] / [QString::arg(int)]: decimal rendering. *)
Definition number (n : Z) : string := NilZero.string_of_int (Z.to_int n).

(** [QString("%1 ... %2").arg(a).arg(b)]: each [arg] replaces the
    lowest-numbered marker still present. *)
Definition arg2 (fmt : string) (a b : Z) : string :=
  replace (replace fmt "%1" (number a)) "%2" (number b).

(** Left padding with zeros up to [width] characters. *)
Fixpoint zeros (n : nat) : string :=
  match n with O => EmptyString | S k => String "0" (zeros k) end.

Definition padded (width : nat) (n : Z) : string :=
  let digits := number n in
  String.append (zeros (width - String.length digits)) digits.

End QString.

(** ** Date and time: [QDateTime::toString(format)] *)

Record QDateTime : Type := mkDateTime {
  year : Z; month : Z; day : Z;
  hour : Z; minute : Z; second : Z
}.

(** The format interpreter for the expressions the source passes
    ([yyyy], [MM], [dd], [HH], [mm], [ss]); every other character is copied. *)
Fixpoint toString (t : QDateTime) (format : string) : string :=
  match format with
  | String "y" (String "y" (String "y" (String "y" rest))) =>
      String.append (QString.padded 4 (year t)) (toString t rest)
  | String "M" (String "M" rest) =>
      String.append (QString.padded 2 (month t)) (toString t rest)
  | String "d" (String "d" rest) =>
      String.append (QString.padded 2 (day t)) (toString t rest)
  | String "H" (String "H" rest) =>
      String.append (QString.padded 2 (hour t)) (toString t rest)
  | String "m" (String "m" rest) =>
      String.append (QString.padded 2 (minute t)) (toString t rest)
  | String "s" (String "s" rest) =>
      String.append (QString.padded 2 (second t)) (toString t rest)
  | String c rest => String c (toString t rest)
  | EmptyString => EmptyString
  end.

(** [QDir(dir).filePath(name)], as [QFileInfo(QDir(dir), name)] builds it. *)
Definition QDir_filePath (dir name : string) : string :=
  if QString.isEmpty dir then name
  else if QString.startsWith (QString.mid dir (Nat.pred (String.length dir))) "/"
       then String.append dir name
       else String.append dir (String "/" name).

(** ** Data model *)

(** [enum State] of the class: the value of [m_state]. *)
Inductive State : Type := NOT_STARTED | RUNNING | STOPPING | STOPPED.

Definition State_eqb (a b : State) : bool :=
  match a, b with
  | NOT_STARTED, NOT_STARTED | RUNNING, RUNNING
  | STOPPING, STOPPING | STOPPED, STOPPED => true
  | _, _ => false
  end.

(** Position of a state in the order NotStarted, Running, Stopping, Stopped. *)
Definition State_rank (a : State) : nat :=
  match a with NOT_STARTED => 0 | RUNNING => 1 | STOPPING => 2 | STOPPED => 3 end.

Definition QHostAddress : Type := string.

(** An accepted connection, as [nextPendingConnection] hands it out. *)
Record QTcpSocket : Type := mkSocket {
  socketDescriptor : Z;
  peerAddress : QHostAddress
}.

(** [new Client(socket)] *)
Record Client : Type := mkClient { client_socket : QTcpSocket }.

(** A session as far as this file touches it: [session->id()]. *)
Record Session : Type := mkSession { id : Z }.

(** The listening socket object behind [m_server]: a [QTcpServer], or an
    [SslServer] when it was built from a certificate and a key. *)
Record QTcpServer : Type := mkServer {
  tls : bool;
  isListening : bool;
  pendingConnections : list QTcpSocket
}.

(** One piece of a log line ([logger::info() << a << b << ...]). *)
Inductive LogItem : Type :=
| Str (s : string)
| Num (n : Z)
| Addr (a : QHostAddress).

(** Calls that leave the class, in the order they are made. *)
Inductive Effect : Type :=
| LogInfo (line : list LogItem)
| LogError (line : list LogItem)
| NewSslServer (cert key : string)          (* new SslServer(cert, key, this) *)
| NewTcpServer                               (* new QTcpServer(this) *)
| ConnectNewConnection                       (* connect(m_server, newConnection, newClient) *)
| Listen (address : QHostAddress) (port : Z) (* m_server->listen(address, port) *)
| SetSocketDescriptor (fd : Z)               (* m_server->setSocketDescriptor(fd) *)
| DeleteServer                               (* delete m_server *)
| CloseServer                                (* m_server->close() *)
| StopAll                                    (* m_sessions->stopAll() *)
| AddClient (c : Client)                     (* m_sessions->addClient(client) *)
| DisconnectKick (c : Client) (reason : string)
| NotifyStatus (text : string)               (* initsys::notifyStatus(text) *)
| SetRecordingFile (session : Session) (path : string)
| ForwardMustSecure (secure : bool)          (* m_sessions->setMustSecure(secure) *)
| ForwardLocalAddress (addr : string)        (* announcementApiClient()->setLocalAddress *)
| EmitServerStopped.                         (* emit serverStopped() *)

(** The session registry ([SessionServer], outside this file): the
    operations [MultiServer] calls on [m_sessions]. *)
Class SessionServer (R : Type) : Type := {
  totalUsers : R -> Z;
  sessionCount : R -> Z;
  addClient : Client -> R -> R;
  stopAll : R -> R;
  setMustSecure : bool -> R -> R
}.

(** The text of a status report:
    [QString("%1 users and %2 sessions").arg(totalUsers()).arg(sessionCount())]. *)
Definition status_text {R} {registry : SessionServer R} (r : R) : string :=
  QString.arg2 "%1 users and %2 sessions" (totalUsers r) (sessionCount r).

Arguments status_text {R registry} r : simpl never.

(** What the world outside the process answers when it is asked. *)
Record Env : Type := mkEnv {
  (* SslServer::isValidCert() for a server built from this pair *)
  isValidCert : string -> string -> bool;
  (* QTcpServer::listen and the errorString() it leaves on failure *)
  listen : QHostAddress -> Z -> bool;
  errorString : string;
  (* QTcpServer::setSocketDescriptor *)
  setSocketDescriptor : Z -> bool;
  (* ServerConfig *)
  isAddressBanned : QHostAddress -> bool;
  RecordingPath : string;
  (* qgetenv("HOME"), QFileInfo::isDir, QFileInfo::absoluteFilePath,
     QDateTime::currentDateTime *)
  HOME : string;
  isDir : string -> bool;
  absoluteFilePath : string -> string;
  currentDateTime : QDateTime;
  (* sessionIdString, declared with the session classes *)
  sessionIdString : Z -> string
}.

(** The object.  [journal] is the record of effects, most recent first. *)
Record MultiServer (R : Type) : Type := mkMultiServer {
  m_sessions : R;
  m_server : option QTcpServer;
  m_state : State;
  m_autoStop : bool;
  m_sslCertFile : string;
  m_sslKeyFile : string;
  journal : list Effect
}.

Arguments mkMultiServer {R}.
Arguments m_sessions {R}.
Arguments m_server {R}.
Arguments m_state {R}.
Arguments m_autoStop {R}.
Arguments m_sslCertFile {R}.
Arguments m_sslKeyFile {R}.
Arguments journal {R}.

(** ** The monad of member functions *)

(** How a call can die: a failed [Q_ASSERT], or a call through a null
    pointer. *)
Inductive Fault : Type := AssertionFailed | NullPointer.

(** A call either returns a value and the object's new state, or dies with
    the object in the state it had reached. *)
Inductive Outcome (R A : Type) : Type :=
| Done (a : A) (s : MultiServer R)
| Crash (f : Fault) (s : MultiServer R).

Arguments Done {R A}.
Arguments Crash {R A}.

Definition Act (R A : Type) : Type := MultiServer R -> Outcome R A.

Definition ret {R A} (a : A) : Act R A := fun s => Done a s.

Definition bind {R A B} (m : Act R A) (k : A -> Act R B) : Act R B :=
  fun s => match m s with
           | Done a s' => k a s'
           | Crash f s' => Crash f s'
           end.

Declare Scope act_scope.
Delimit Scope act_scope with act.
Notation "x <- m ;; k" := (bind m (fun x => k))
  (at level 61, m at next level, right associativity) : act_scope.
Notation "m ;; k" := (bind m (fun _ => k))
  (at level 61, right associativity) : act_scope.
Local Open Scope act_scope.

Definition get {R} : Act R (MultiServer R) := fun s => Done s s.

Definition crash {R A} (f : Fault) : Act R A := fun s => Crash f s.

(** The state a call left behind, however it ended. *)
Definition final {R A} (o : Outcome R A) : MultiServer R :=
  match o with Done _ s => s | Crash _ s => s end.

Definition returned {R A} (o : Outcome R A) : option A :=
  match o with Done a _ => Some a | Crash _ _ => None end.

Section Members.

Context {R : Type} {registry : SessionServer R}.

Definition perform (e : Effect) : Act R unit :=
  fun s => Done tt (mkMultiServer (m_sessions s) (m_server s) (m_state s)
                      (m_autoStop s) (m_sslCertFile s) (m_sslKeyFile s)
                      (e :: journal s)).

Definition set_state (st : State) : Act R unit :=
  fun s => Done tt (mkMultiServer (m_sessions s) (m_server s) st
                      (m_autoStop s) (m_sslCertFile s) (m_sslKeyFile s)
                      (journal s)).

Definition set_server (p : option QTcpServer) : Act R unit :=
  fun s => Done tt (mkMultiServer (m_sessions s) p (m_state s)
                      (m_autoStop s) (m_sslCertFile s) (m_sslKeyFile s)
                      (journal s)).

Definition set_sessions (r : R) : Act R unit :=
  fun s => Done tt (mkMultiServer r (m_server s) (m_state s)
                      (m_autoStop s) (m_sslCertFile s) (m_sslKeyFile s)
                      (journal s)).

(** [Q_ASSERT(cond)] *)
Definition Q_ASSERT (cond : bool) : Act R unit :=
  if cond then ret tt else crash AssertionFailed.

(** [m_server->...]: the object [m_server] points to. *)
Definition deref_server : Act R QTcpServer :=
  s <- get ;;
  match m_server s with
  | Some srv => ret srv
  | None => crash NullPointer
  end.

(** The constructor: no listener, [NOT_STARTED], auto-stop off, no TLS
    material, and a registry of its own. *)
Definition MultiServer_new (sessions : R) : MultiServer R :=
  mkMultiServer sessions None NOT_STARTED false EmptyString EmptyString [].

Definition setAutoStop (autostop : bool) : Act R unit :=
  fun s => Done tt (mkMultiServer (m_sessions s) (m_server s) (m_state s)
                      autostop (m_sslCertFile s) (m_sslKeyFile s)
                      (journal s)).

(** [MultiServer::setMustSecure] *)
Definition MultiServer_setMustSecure (secure : bool) : Act R unit :=
  s <- get ;;
  set_sessions (setMustSecure secure (m_sessions s)) ;;
  perform (ForwardMustSecure secure).

Definition setAnnounceLocalAddr (addr : string) : Act R unit :=
  perform (ForwardLocalAddress addr).

(** *** Listener construction and start-up *)

(** [bool MultiServer::createServer()] *)
Definition createServer (env : Env) : Act R bool :=
  s <- get ;;
  built <-
    (if negb (QString.isEmpty (m_sslCertFile s))
        && negb (QString.isEmpty (m_sslKeyFile s))
     then
       perform (NewSslServer (m_sslCertFile s) (m_sslKeyFile s)) ;;
       if negb (isValidCert env (m_sslCertFile s) (m_sslKeyFile s))
       then ret false
       else set_server (Some (mkServer true false [])) ;; ret true
     else
       perform NewTcpServer ;;
       set_server (Some (mkServer false false [])) ;;
       ret true) ;;
  if built
  then perform ConnectNewConnection ;; ret true
  else ret false.

(** [bool MultiServer::start(quint16 port, const QHostAddress& address)] *)
Definition start (env : Env) (port : Z) (address : QHostAddress) : Act R bool :=
  s <- get ;;
  Q_ASSERT (State_eqb (m_state s) NOT_STARTED) ;;
  set_state RUNNING ;;
  created <- createServer env ;;
  if negb created then ret false
  else
    srv <- deref_server ;;
    perform (Listen address port) ;;
    if negb (listen env address port) then
      perform (LogError [Str (errorString env)]) ;;
      perform DeleteServer ;;
      set_server None ;;
      set_state NOT_STARTED ;;
      ret false
    else
      set_server (Some (mkServer (tls srv) true (pendingConnections srv))) ;;
      perform (LogInfo [Str "Started listening on port"; Num port;
                        Str "at address"; Addr address]) ;;
      ret true.

(** [bool MultiServer::startFd(int fd)] *)
Definition startFd (env : Env) (fd : Z) : Act R bool :=
  s <- get ;;
  Q_ASSERT (State_eqb (m_state s) NOT_STARTED) ;;
  set_state RUNNING ;;
  created <- createServer env ;;
  if negb created then ret false
  else
    srv <- deref_server ;;
    perform (SetSocketDescriptor fd) ;;
    if negb (setSocketDescriptor env fd) then
      perform (LogError [Str "Couldn't set server socket descriptor!"]) ;;
      perform DeleteServer ;;
      set_server None ;;
      set_state NOT_STARTED ;;
      ret false
    else
      set_server (Some (mkServer (tls srv) true (pendingConnections srv))) ;;
      perform (LogInfo [Str "Started listening on passed socket"]) ;;
      ret true.

(** *** Recording file names *)

(** [void MultiServer::assignRecording(Session *session)] *)
Definition assignRecording (env : Env) (session : Session) : Act R unit :=
  let filename := RecordingPath env in
  if QString.isEmpty filename then ret tt
  else
    (* Expand home directory *)
    let filename :=
      if QString.startsWith filename "~/"
      then String.append (HOME env) (QString.mid filename 1)
      else filename in
    (* Use default file pattern if target is a directory *)
    let filename :=
      if isDir env filename
      then absoluteFilePath env (QDir_filePath filename "%d %t session %i.dprec")
      else filename in
    (* Expand placeholders *)
    let now := currentDateTime env in
    let filename := QString.replace filename "%d" (toString now "yyyy-MM-dd") in
    let filename := QString.replace filename "%t" (toString now "HH.mm.ss") in
    let filename := QString.replace filename "%i" (sessionIdString env (id session)) in
    perform (SetRecordingFile session (absoluteFilePath env filename)).

(** *** Status reports *)

(** [void MultiServer::printStatusUpdate()] *)
Definition printStatusUpdate : Act R unit :=
  s <- get ;;
  perform (NotifyStatus (status_text (m_sessions s))).

(** *** Accepting connections *)

(** [m_server->nextPendingConnection()]: the oldest pending connection is
    taken off the listener's queue; a null pointer when there is none. *)
Definition nextPendingConnection : Act R (option QTcpSocket) :=
  srv <- deref_server ;;
  match pendingConnections srv with
  | [] => ret None
  | socket :: rest =>
      set_server (Some (mkServer (tls srv) (isListening srv) rest)) ;;
      ret (Some socket)
  end.

(** [void MultiServer::newClient()] *)
Definition newClient (env : Env) : Act R unit :=
  pending <- nextPendingConnection ;;
  match pending with
  | None => crash NullPointer              (* socket->peerAddress() *)
  | Some socket =>
      perform (LogInfo [Str "Accepted new client from address";
                        Addr (peerAddress socket)]) ;;
      let client := mkClient socket in
      if isAddressBanned env (peerAddress socket) then
        perform (LogInfo [Str "Kicking banned client from address";
                          Addr (peerAddress socket); Str "straight away"]) ;;
        perform (DisconnectKick client "BANNED")
      else
        s <- get ;;
        set_sessions (addClient client (m_sessions s)) ;;
        perform (AddClient client) ;;
        printStatusUpdate
  end.

(** *** Stopping *)

(** [void MultiServer::stop()] *)
Definition stop : Act R unit :=
  s <- get ;;
  (if State_eqb (m_state s) RUNNING then
     perform (LogInfo [Str "Stopping server and kicking out";
                       Num (totalUsers (m_sessions s)); Str "users..."]) ;;
     set_state STOPPING ;;
     srv <- deref_server ;;
     set_server (Some (mkServer (tls srv) false [])) ;;
     perform CloseServer ;;
     s1 <- get ;;
     set_sessions (stopAll (m_sessions s1)) ;;
     perform StopAll
   else ret tt) ;;
  s2 <- get ;;
  if State_eqb (m_state s2) STOPPING then
    if totalUsers (m_sessions s2) =? 0 then
      set_state STOPPED ;;
      perform (LogInfo [Str "Server stopped."]) ;;
      perform EmitServerStopped
    else ret tt
  else ret tt.

(** [void MultiServer::tryAutoStop()] *)
Definition tryAutoStop : Act R unit :=
  s <- get ;;
  if State_eqb (m_state s) RUNNING
     && m_autoStop s
     && (sessionCount (m_sessions s) =? 0)
     && (totalUsers (m_sessions s) =? 0)
  then
    perform (LogInfo [Str "Autostopping due to lack of sessions"]) ;;
    stop
  else ret tt.

(** *** Signal wiring (the constructor's [connect] calls) *)

(** The slot connected to [SessionServer::userDisconnected]. *)
Definition on_userDisconnected : Act R unit :=
  printStatusUpdate ;;
  (* The server will be fully stopped after all users have disconnected *)
  s <- get ;;
  if State_eqb (m_state s) STOPPING then stop else tryAutoStop.

Definition on_sessionCreated (env : Env) (session : Session) : Act R unit :=
  assignRecording env session.

Definition on_sessionEnded : Act R unit := tryAutoStop.

Definition on_userLoggedIn : Act R unit := printStatusUpdate.

End Members.

(** ** The event loop: calls and signals reaching the object *)

Inductive Event (R : Type) : Type :=
| CallStart (port : Z) (address : QHostAddress)
| CallStartFd (fd : Z)
| CallStop
| CallSetAutoStop (autostop : bool)
| CallSetMustSecure (secure : bool)
| CallSetAnnounceLocalAddr (addr : string)
| CallSetSslCertFile (cert key : string)
| NewConnection (socket : QTcpSocket)   (* QTcpServer::newConnection *)
| SessionCreated (session : Session)
| SessionEnded
| UserLoggedIn
| UserDisconnected
| RegistryActivity (sessions : R).      (* the registry's own work between slots *)

Arguments CallStart {R}.
Arguments CallStartFd {R}.
Arguments CallStop {R}.
Arguments CallSetAutoStop {R}.
Arguments CallSetMustSecure {R}.
Arguments CallSetAnnounceLocalAddr {R}.
Arguments CallSetSslCertFile {R}.
Arguments NewConnection {R}.
Arguments SessionCreated {R}.
Arguments SessionEnded {R}.
Arguments UserLoggedIn {R}.
Arguments UserDisconnected {R}.
Arguments RegistryActivity {R}.

Section EventLoop.

Context {R : Type} {registry : SessionServer R}.

(** Modelled from the spec: the setter of the TLS certificate and key paths
    is declared with the class (multiserver.h), which is not among the
    sources; the ListenerConfig of the data model holds exactly these two
    optional paths. *)
Definition setSslCertFile (cert key : string) : Act R unit :=
  fun s => Done tt (mkMultiServer (m_sessions s) (m_server s) (m_state s)
                      (m_autoStop s) cert key (journal s)).

(** A listening socket queues the connection and raises [newConnection],
    which runs the slot [newClient]; a socket that is not listening (or no
    socket at all) raises nothing. *)
Definition on_newConnection (env : Env) (socket : QTcpSocket) : Act R unit :=
  s <- get ;;
  match m_server s with
  | Some srv =>
      if isListening srv then
        set_server (Some (mkServer (tls srv) true
                            (pendingConnections srv ++ [socket]))) ;;
        newClient env
      else ret tt
  | None => ret tt
  end.

Definition deliver (env : Env) (e : Event R) : Act R unit :=
  match e with
  | CallStart port address => _ <- start env port address ;; ret tt
  | CallStartFd fd => _ <- startFd env fd ;; ret tt
  | CallStop => stop
  | CallSetAutoStop b => setAutoStop b
  | CallSetMustSecure b => MultiServer_setMustSecure b
  | CallSetAnnounceLocalAddr a => setAnnounceLocalAddr a
  | CallSetSslCertFile cert key => setSslCertFile cert key
  | NewConnection socket => on_newConnection env socket
  | SessionCreated session => on_sessionCreated env session
  | SessionEnded => on_sessionEnded
  | UserLoggedIn => on_userLoggedIn
  | UserDisconnected => on_userDisconnected
  | RegistryActivity sessions => set_sessions sessions
  end.

(** A whole run: events are handled one after the other, each with the
    environment of its moment; a crash ends the run. *)
Fixpoint run (script : list (Env * Event R)) : Act R unit :=
  match script with
  | [] => ret tt
  | (env, e) :: rest => deliver env e ;; run rest
  end.

(** [stop()] called [n] times in a row. *)
Fixpoint stop_times (n : nat) : Act R unit :=
  match n with
  | O => ret tt
  | S k => stop ;; stop_times k
  end.

End EventLoop.

(** ** Reading the journal *)

(** How many times [serverStopped] was emitted. *)
Fixpoint notifications (j : list Effect) : nat :=
  match j with
  | [] => O
  | EmitServerStopped :: rest => S (notifications rest)
  | _ :: rest => notifications rest
  end.

(** The status texts handed to [initsys::notifyStatus]. *)
Fixpoint status_reports (j : list Effect) : list string :=
  match j with
  | [] => []
  | NotifyStatus text :: rest => text :: status_reports rest
  | _ :: rest => status_reports rest
  end.

(** The clients handed to [SessionServer::addClient]. *)
Fixpoint added_clients (j : list Effect) : list Client :=
  match j with
  | [] => []
  | AddClient c :: rest => c :: added_clients rest
  | _ :: rest => added_clients rest
  end.

(** Listener objects constructed and not deleted. *)
Fixpoint live_listeners (j : list Effect) : Z :=
  match j with
  | [] => 0
  | NewSslServer _ _ :: rest => live_listeners rest + 1
  | NewTcpServer :: rest => live_listeners rest + 1
  | DeleteServer :: rest => live_listeners rest - 1
  | _ :: rest => live_listeners rest
  end.

(** The effects of a call: what [after] journalled beyond [before]. *)
Definition effects_of {R} (before after : MultiServer R) (es : list Effect) : Prop :=
  journal after = es ++ journal before.

(** ** A registry for concrete runs *)

(** Modelled from the spec: a session registry reduced to the two counts the
    lifecycle decisions read.  [addClient] admits one more user; [stopAll]
    only asks the users to leave, their disconnections arrive later as
    events, so the counts stay as they are. *)
Record Counts : Type := mkCounts { users : Z; sessions : Z }.

#[export] Instance CountingRegistry : SessionServer Counts := {
  totalUsers := users;
  sessionCount := sessions;
  addClient := fun _ r => mkCounts (users r + 1) (sessions r);
  stopAll := fun r => r;
  setMustSecure := fun _ r => r
}.

(** Modelled from the spec: [sessionIdString] is declared with the session
    classes, which are not among the sources; the specification calls it the
    string form of the session identifier and renders session 7 as 7. *)
Definition decimal_sessionIdString (session_id : Z) : string :=
  QString.number session_id.

(** An environment for concrete runs: every certificate is valid, every
    address can be bound, nobody is banned, no recording is configured,
    paths are already absolute and none of them is a directory. *)
Definition quiet_env : Env :=
  mkEnv (fun _ _ => true) (fun _ _ => true) EmptyString (fun _ => true)
        (fun _ => false) EmptyString
        "/home/u" (fun _ => false) (fun p => p)
        (mkDateTime 2024 3 5 14 7 2) decimal_sessionIdString.

Definition a_listener : QTcpServer := mkServer false true [].

(** The environment of Scenario B: [quiet_env] with the recording pattern
    configured. *)
Definition scenario_B_env : Env :=
  mkEnv (isValidCert quiet_env) (listen quiet_env) (errorString quiet_env)
        (setSocketDescriptor quiet_env) (isAddressBanned quiet_env)
        "~/rec/%d %t session %i.dprec"
        (HOME quiet_env) (isDir quiet_env) (absoluteFilePath quiet_env)
        (currentDateTime quiet_env) (sessionIdString quiet_env).

(** The condition under which [tryAutoStop] goes on to [stop()]. *)
Definition vacant {R} {registry : SessionServer R} (s : MultiServer R) : Prop :=
  m_state s = RUNNING /\ m_autoStop s = true /\
  sessionCount (m_sessions s) = 0 /\ totalUsers (m_sessions s) = 0.

(** A call made in Running took the object into Stopping (and possibly on
    to Stopped). *)
Definition began_stopping {R} (before after : MultiServer R) : Prop :=
  m_state before = RUNNING /\
  (m_state after = STOPPING \/ m_state after = STOPPED).

(** The journal holds one [serverStopped] when the state is Stopped and
    none before. *)
Definition notified_iff_stopped {R} (s : MultiServer R) : Prop :=
  notifications (journal s)
  = if State_eqb (m_state s) STOPPED then 1%nat else 0%nat.

(** The object is draining or has stopped. *)
Definition stopping_or_stopped {R} (s : MultiServer R) : Prop :=
  m_state s = STOPPING \/ m_state s = STOPPED.

(** ** Concrete objects and environments *)

(** A server as the constructor leaves it, with an empty registry. *)
Definition fresh : MultiServer Counts := MultiServer_new (mkCounts 0 0).

(** A server that listens, with nobody connected and no session. *)
Definition running_idle : MultiServer Counts :=
  mkMultiServer (mkCounts 0 0) (Some a_listener) RUNNING false
                EmptyString EmptyString [].

(** A server configured with TLS material, not started yet. *)
Definition with_tls_material : MultiServer Counts :=
  mkMultiServer (mkCounts 0 0) None NOT_STARTED false
                "server.crt" "server.key" [].

(** The certificate/key pair does not validate. *)
Definition bad_certificate_env : Env :=
  mkEnv (fun _ _ => false) (listen quiet_env) (errorString quiet_env)
        (setSocketDescriptor quiet_env) (isAddressBanned quiet_env)
        (RecordingPath quiet_env) (HOME quiet_env) (isDir quiet_env)
        (absoluteFilePath quiet_env) (currentDateTime quiet_env)
        (sessionIdString quiet_env).

(** The object a [start] leaves behind when the certificate is rejected. *)
Definition after_rejected_certificate : MultiServer Counts :=
  final (start bad_certificate_env 27750 "0.0.0.0" with_tls_material).

(** The port is taken: [listen] fails and reports why. *)
Definition port_in_use_env : Env :=
  mkEnv (isValidCert quiet_env) (fun _ _ => false)
        "The bound address is already in use"
        (setSocketDescriptor quiet_env) (isAddressBanned quiet_env)
        (RecordingPath quiet_env) (HOME quiet_env) (isDir quiet_env)
        (absoluteFilePath quiet_env) (currentDateTime quiet_env)
        (sessionIdString quiet_env).

(** One address is on the ban list. *)
Definition ban_env : Env :=
  mkEnv (isValidCert quiet_env) (listen quiet_env) (errorString quiet_env)
        (setSocketDescriptor quiet_env)
        (fun a => String.eqb a "203.0.113.7")
        (RecordingPath quiet_env) (HOME quiet_env) (isDir quiet_env)
        (absoluteFilePath quiet_env) (currentDateTime quiet_env)
        (sessionIdString quiet_env).

Definition banned_socket : QTcpSocket := mkSocket 12 "203.0.113.7".

(** A listening server whose listener holds one connection to accept. *)
Definition with_banned_pending : MultiServer Counts :=
  mkMultiServer (mkCounts 0 0) (Some (mkServer false true [banned_socket]))
                RUNNING false EmptyString EmptyString [].

(** A session opens and ends on a started server; with [autostop] the
    server is told beforehand to stop when vacant. *)
Definition session_comes_and_goes (autostop : bool)
  : list (Env * Event Counts) :=
  [ (quiet_env, CallSetAutoStop autostop);
    (quiet_env, CallStart 27750 "0.0.0.0");
    (quiet_env, RegistryActivity (mkCounts 0 1));
    (quiet_env, SessionCreated (mkSession 1));
    (quiet_env, RegistryActivity (mkCounts 0 0));
    (quiet_env, SessionEnded) ].

(** ** Further vocabulary *)

(** [createServer] will hand back a listener: there is no complete TLS
    material, or the pair validates. *)
Definition listener_constructible {R} (env : Env) (s : MultiServer R) : bool :=
  QString.isEmpty (m_sslCertFile s) || QString.isEmpty (m_sslKeyFile s)
  || isValidCert env (m_sslCertFile s) (m_sslKeyFile s).

(** Both the certificate and the key path are set. *)
Definition wants_tls {R} (s : MultiServer R) : bool :=
  negb (QString.isEmpty (m_sslCertFile s))
  && negb (QString.isEmpty (m_sslKeyFile s)).

(** Every environment of the script bans exactly the addresses [banned]
    does. *)
Definition bans {R} (banned : QHostAddress -> bool)
    (script : list (Env * Event R)) : Prop :=
  Forall (fun moment => forall a, isAddressBanned (fst moment) a = banned a)
         script.

(** No client handed to [addClient] came from a banned address. *)
Definition never_banned (banned : QHostAddress -> bool) (j : list Effect) : Prop :=
  Forall (fun c => banned (peerAddress (client_socket c)) = false)
         (added_clients j).

(** No environment of the script rejects a certificate/key pair. *)
Definition certificates_validate {R} (script : list (Env * Event R)) : Prop :=
  Forall (fun moment => forall cert key, isValidCert (fst moment) cert key = true)
         script.

Definition is_nil {A} (l : list A) : bool :=
  match l with [] => true | _ :: _ => false end.

(** The listener is in step with the state: none before the start, a
    listening one while Running, a closed one from Stopping on, and no
    accepted connection left waiting in it. *)
Definition listener_matches_state {R} (s : MultiServer R) : bool :=
  match m_state s, m_server s with
  | NOT_STARTED, None => true
  | RUNNING, Some srv => isListening srv && is_nil (pendingConnections srv)
  | STOPPING, Some srv | STOPPED, Some srv =>
      negb (isListening srv) && is_nil (pendingConnections srv)
  | _, _ => false
  end.

(** The listener objects alive are exactly the one [m_server] points to. *)
Definition owns_live_listeners {R} (s : MultiServer R) : Prop :=
  live_listeners (journal s)
  = match m_server s with Some _ => 1 | None => 0 end.

Definition good_socket : QTcpSocket := mkSocket 13 "198.51.100.4".

(** A server is started, a banned and a welcome peer connect, and the
    operator stops it. *)
Definition two_peers_knock : list (Env * Event Counts) :=
  [ (ban_env, CallStart 27750 "0.0.0.0");
    (ban_env, NewConnection banned_socket);
    (ban_env, NewConnection good_socket);
    (ban_env, UserLoggedIn);
    (ban_env, CallStop) ].

(** [start] is called on a server that already runs. *)
Definition started_twice : list (Env * Event Counts) :=
  [ (quiet_env, CallStart 27750 "0.0.0.0");
    (quiet_env, CallStart 27751 "0.0.0.0") ].

(** [s.contains(before)] for a non-empty [before]: it occurs somewhere. *)
Fixpoint contains (s before : string) : bool :=
  match s with
  | EmptyString => false
  | String _ rest => String.prefix before s || contains rest before
  end.

(** The text holds no percent sign, so no placeholder can start in it. *)
Fixpoint no_percent (s : string) : bool :=
  match s with
  | EmptyString => true
  | String c rest => negb (Ascii.eqb c "%") && no_percent rest
  end.

(** The file name the default pattern gives for a date, a time and a
    session id string. *)
Definition default_recording_name (date time session_id : string) : string :=
  String.append date
    (String " " (String.append time
       (String.append " session " (String.append session_id ".dprec")))).

(** A recording pattern that uses the placeholder the documentation of
    [assignRecording] lists for the time. *)
Definition documented_time_env : Env :=
  mkEnv (isValidCert quiet_env) (listen quiet_env) (errorString quiet_env)
        (setSocketDescriptor quiet_env) (isAddressBanned quiet_env)
        "/var/rec/%h.dprec"
        (HOME quiet_env) (isDir quiet_env) (absoluteFilePath quiet_env)
        (currentDateTime quiet_env) (sessionIdString quiet_env).

(** The recording path names a directory. *)
Definition directory_env : Env :=
  mkEnv (isValidCert quiet_env) (listen quiet_env) (errorString quiet_env)
        (setSocketDescriptor quiet_env) (isAddressBanned quiet_env)
        "/home/u/rec"
        (HOME quiet_env) (fun p => String.eqb p "/home/u/rec")
        (absoluteFilePath quiet_env)
        (currentDateTime quiet_env) (sessionIdString quiet_env).

(** A recording pattern under the home directory, without placeholders. *)
Definition home_env : Env :=
  mkEnv (isValidCert quiet_env) (listen quiet_env) (errorString quiet_env)
        (setSocketDescriptor quiet_env) (isAddressBanned quiet_env)
        "~/last.dprec"
        (HOME quiet_env) (isDir quiet_env) (absoluteFilePath quiet_env)
        (currentDateTime quiet_env) (sessionIdString quiet_env).

(** The passed descriptor cannot be adopted. *)
Definition bad_descriptor_env : Env :=
  mkEnv (isValidCert quiet_env) (listen quiet_env) (errorString quiet_env)
        (fun _ => false) (isAddressBanned quiet_env)
        (RecordingPath quiet_env) (HOME quiet_env) (isDir quiet_env)
        (absoluteFilePath quiet_env) (currentDateTime quiet_env)
        (sessionIdString quiet_env).

(** A certificate path is configured, the key path was forgotten. *)
Definition with_certificate_only : MultiServer Counts :=
  mkMultiServer (mkCounts 0 0) None NOT_STARTED false
                "server.crt" EmptyString [].

(** A listening server with two users in one session. *)
Definition running_busy : MultiServer Counts :=
  mkMultiServer (mkCounts 2 1) (Some a_listener) RUNNING false
                EmptyString EmptyString [].

(** A stopped-for server that waits for its last user to go. *)
Definition draining : MultiServer Counts :=
  mkMultiServer (mkCounts 1 1) (Some (mkServer false false [])) STOPPING false
                EmptyString EmptyString [].

(** A socket-activated server: listening, auto-stop on, nobody left. *)
Definition running_vacant : MultiServer Counts :=
  mkMultiServer (mkCounts 0 0) (Some a_listener) RUNNING true
                EmptyString EmptyString [].

(** A listening server whose listener holds two connections to accept. *)
Definition with_two_pending : MultiServer Counts :=
  mkMultiServer (mkCounts 0 0)
                (Some (mkServer false true [good_socket; banned_socket]))
                RUNNING false EmptyString EmptyString [].

(** The call did not die on a null pointer. *)
Definition never_null_dereference {R A} (o : Outcome R A) : Prop :=
  match o with
  | Crash NullPointer _ => False
  | _ => True
  end.

(** * Properties *)

(** Unfolds the monad and the member functions down to the record. *)
Ltac unfold_act :=
  unfold on_userDisconnected, on_sessionEnded, on_userLoggedIn, on_sessionCreated,
    on_newConnection, tryAutoStop, stop, newClient, nextPendingConnection,
    printStatusUpdate, start, startFd, createServer, setAutoStop,
    MultiServer_setMustSecure, setAnnounceLocalAddr, setSslCertFile,
    deref_server, Q_ASSERT, perform, set_state, set_server, set_sessions,
    bind, ret, get, crash, effects_of in *.

Ltac open_object s :=
  destruct s as [sessions0 server0 state0 autostop0 cert0 key0 journal0];
  simpl in *; subst.

(** Case analysis on the innermost test the goal is stuck on. *)
Ltac innermost_case :=
  match goal with
  | |- context [match ?x with _ => _ end] =>
      lazymatch x with
      | context [match _ with _ => _ end] => fail
      | _ => destruct x eqn:?
      end
  end.

Ltac all_cases := repeat (simpl; innermost_case); simpl.

Section Stop.

Context {R : Type} {registry : SessionServer R}.

(** C10. [stop()] before any successful start does nothing at all: the
    object, journal included, is returned as it was, so the state is still
    NotStarted, no listener was closed, [stopAll] was not invoked and
    [serverStopped] was not emitted. *)
Theorem stop_not_started_noop :
  forall s : MultiServer R,
    m_state s = NOT_STARTED ->
    stop s = Done tt s.
Proof.
  intros s Hst. unfold_act. rewrite Hst. simpl.
  rewrite Hst. reflexivity.
Qed.

(** [stop()] on a running server with its listener in place, whose registry
    holds no user and whose [stopAll] brings none in, goes through
    Stopping to Stopped inside the call: the listener is closed, [stopAll]
    invoked, then [serverStopped] emitted, in this order. *)
Theorem stop_running_without_users_completes :
  forall (s : MultiServer R) (srv : QTcpServer),
    m_state s = RUNNING ->
    m_server s = Some srv ->
    totalUsers (m_sessions s) = 0 ->
    (forall r : R, totalUsers r = 0 -> totalUsers (stopAll r) = 0) ->
    exists s',
      stop s = Done tt s' /\
      m_state s' = STOPPED /\
      m_server s' = Some (mkServer (tls srv) false []) /\
      m_sessions s' = stopAll (m_sessions s) /\
      effects_of s s'
        [EmitServerStopped; LogInfo [Str "Server stopped."];
         StopAll; CloseServer;
         LogInfo [Str "Stopping server and kicking out"; Num 0; Str "users..."]].
Proof.
  intros s srv Hst Hsrv Husers Hlaw.
  open_object s. unfold_act. simpl.
  rewrite (Hlaw _ Husers). simpl.
  eexists. split; [reflexivity|]. simpl.
  rewrite Husers. repeat split; reflexivity.
Qed.

(** C9 (the code's behaviour).  Running with no user connected does not
    suffice for [stop()] to complete: when [m_server] is null, as a [start]
    that failed on the certificate leaves it, [stop()] logs, sets Stopping
    and dies on [m_server->close()].  The state reached is Stopping, not
    Stopped; [stopAll] is not invoked and [serverStopped] is not emitted. *)
Theorem stop_running_without_listener_dies :
  forall s : MultiServer R,
    m_state s = RUNNING ->
    m_server s = None ->
    totalUsers (m_sessions s) = 0 ->
    exists s',
      stop s = Crash NullPointer s' /\
      m_state s' = STOPPING /\
      m_sessions s' = m_sessions s /\
      notifications (journal s') = notifications (journal s) /\
      effects_of s s'
        [LogInfo [Str "Stopping server and kicking out"; Num 0; Str "users..."]].
Proof.
  intros s Hst Hsrv Husers. open_object s. unfold_act. simpl.
  rewrite Husers.
  eexists. split; [reflexivity|]. simpl.
  split; [reflexivity|]. split; [reflexivity|]. split; reflexivity.
Qed.

End Stop.

Section Startup.

Context {R : Type} {registry : SessionServer R}.

(** C1 (the code's behaviour).  A [start] or [startFd] made in NotStarted
    whose TLS certificate/key pair is invalid returns false, but leaves
    [m_state] at RUNNING: the early return after [createServer] skips the
    reset that the bind-failure path performs.  No listener is installed
    and the [SslServer] that was constructed is not deleted. *)
Theorem start_invalid_certificate_leaves_running :
  forall (env : Env) (s : MultiServer R) (port fd : Z) (address : QHostAddress),
    m_state s = NOT_STARTED ->
    QString.isEmpty (m_sslCertFile s) = false ->
    QString.isEmpty (m_sslKeyFile s) = false ->
    isValidCert env (m_sslCertFile s) (m_sslKeyFile s) = false ->
    (returned (start env port address s) = Some false /\
     m_state (final (start env port address s)) = RUNNING /\
     m_server (final (start env port address s)) = m_server s /\
     live_listeners (journal (final (start env port address s)))
       = live_listeners (journal s) + 1) /\
    (returned (startFd env fd s) = Some false /\
     m_state (final (startFd env fd s)) = RUNNING).
Proof.
  intros env s port fd address Hst Hc Hk Hv.
  open_object s. unfold_act. simpl.
  rewrite Hc, Hk. simpl. rewrite Hv. simpl.
  repeat split; reflexivity.
Qed.

(** C5. A [start] made in NotStarted whose listener is constructed (no TLS
    material, or a valid pair) and whose [listen] fails returns false,
    logs the listener's [errorString()] as an error, deletes the listener,
    clears [m_server] and puts [m_state] back to NOT_STARTED; nothing else
    of the object changes and no listener object is left alive. *)
Theorem start_bind_failure_reverts :
  forall (env : Env) (s : MultiServer R) (port : Z) (address : QHostAddress),
    m_state s = NOT_STARTED ->
    (QString.isEmpty (m_sslCertFile s) || QString.isEmpty (m_sslKeyFile s) = true
     \/ isValidCert env (m_sslCertFile s) (m_sslKeyFile s) = true) ->
    listen env address port = false ->
    exists (s' : MultiServer R) (built : Effect),
      start env port address s = Done false s' /\
      m_state s' = NOT_STARTED /\
      m_server s' = None /\
      m_sessions s' = m_sessions s /\
      effects_of s s'
        [DeleteServer; LogError [Str (errorString env)];
         Listen address port; ConnectNewConnection; built] /\
      (built = NewTcpServer
       \/ built = NewSslServer (m_sslCertFile s) (m_sslKeyFile s)) /\
      live_listeners (journal s') = live_listeners (journal s).
Proof.
  intros env s port address Hst Hbuilt Hlisten.
  open_object s. unfold_act. simpl.
  destruct (QString.isEmpty cert0) eqn:Hc; simpl.
  - rewrite Hlisten. simpl.
    exists (mkMultiServer sessions0 None NOT_STARTED autostop0 cert0 key0
              ([DeleteServer; LogError [Str (errorString env)];
                Listen address port; ConnectNewConnection; NewTcpServer]
               ++ journal0)), NewTcpServer.
    simpl. repeat split; auto. lia.
  - destruct (QString.isEmpty key0) eqn:Hk; simpl.
    + rewrite Hlisten. simpl.
      exists (mkMultiServer sessions0 None NOT_STARTED autostop0 cert0 key0
                ([DeleteServer; LogError [Str (errorString env)];
                  Listen address port; ConnectNewConnection; NewTcpServer]
                 ++ journal0)), NewTcpServer.
      simpl. repeat split; auto. lia.
    + destruct Hbuilt as [Hb | Hb]; [discriminate Hb|].
      rewrite Hb. simpl. rewrite Hlisten. simpl.
      exists (mkMultiServer sessions0 None NOT_STARTED autostop0 cert0 key0
                ([DeleteServer; LogError [Str (errorString env)];
                  Listen address port; ConnectNewConnection;
                  NewSslServer cert0 key0] ++ journal0)),
             (NewSslServer cert0 key0).
      simpl. repeat split; auto. lia.
Qed.

End Startup.

Section Admission.

Context {R : Type} {registry : SessionServer R}.

(** C2. When the connection [newClient] takes from the listener comes from
    a banned address, the call logs the acceptance and the kick, invokes
    [disconnectKick("BANNED")] on the new client and nothing else:
    [addClient] is not invoked and the registry is left untouched. *)
Theorem banned_peer_never_added :
  forall (env : Env) (s : MultiServer R) (srv : QTcpServer)
         (socket : QTcpSocket) (rest : list QTcpSocket),
    m_server s = Some srv ->
    pendingConnections srv = socket :: rest ->
    isAddressBanned env (peerAddress socket) = true ->
    exists s',
      newClient env s = Done tt s' /\
      effects_of s s'
        [DisconnectKick (mkClient socket) "BANNED";
         LogInfo [Str "Kicking banned client from address";
                  Addr (peerAddress socket); Str "straight away"];
         LogInfo [Str "Accepted new client from address";
                  Addr (peerAddress socket)]] /\
      added_clients (journal s') = added_clients (journal s) /\
      m_sessions s' = m_sessions s.
Proof.
  intros env s srv socket rest Hsrv Hpending Hban.
  open_object s. unfold_act. simpl.
  rewrite Hpending. simpl. rewrite Hban. simpl.
  eexists. split; [reflexivity|]. simpl. repeat split; reflexivity.
Qed.

End Admission.

Section AutoStop.

Context {R : Type} {registry : SessionServer R}.

Lemma eqb_State_RUNNING :
  forall st, State_eqb st RUNNING = true <-> st = RUNNING.
Proof. destruct st; simpl; split; intro H; congruence. Qed.

(** Whatever [stop()] does, it never leaves the object in Running. *)
Lemma stop_leaves_running :
  forall s : MultiServer R,
    m_state s = RUNNING ->
    m_state (final (stop s)) = STOPPING \/ m_state (final (stop s)) = STOPPED.
Proof.
  intros s Hst. open_object s. unfold_act. simpl.
  destruct server0 as [srv|]; simpl; [|left; reflexivity].
  destruct (totalUsers (stopAll sessions0) =? 0); simpl; auto.
Qed.

Lemma tryAutoStop_unfold :
  forall s : MultiServer R,
    tryAutoStop s =
    if State_eqb (m_state s) RUNNING && m_autoStop s
       && (sessionCount (m_sessions s) =? 0)
       && (totalUsers (m_sessions s) =? 0)
    then stop (mkMultiServer (m_sessions s) (m_server s) (m_state s)
                 (m_autoStop s) (m_sslCertFile s) (m_sslKeyFile s)
                 (LogInfo [Str "Autostopping due to lack of sessions"]
                  :: journal s))
    else Done tt s.
Proof.
  intro s. unfold tryAutoStop, bind, get, perform, ret.
  destruct (State_eqb (m_state s) RUNNING && m_autoStop s
            && (sessionCount (m_sessions s) =? 0)
            && (totalUsers (m_sessions s) =? 0)); reflexivity.
Qed.

(** C4. [tryAutoStop] begins stopping exactly when the state is Running,
    [m_autoStop] is set and both counts are zero; in every other case, in
    particular while a session or a user is left, it returns the object
    unchanged. *)
Theorem autostop_fires_exactly_when_vacant :
  forall s : MultiServer R,
    (began_stopping s (final (tryAutoStop s)) <-> vacant s) /\
    (~ vacant s -> tryAutoStop s = Done tt s) /\
    (sessionCount (m_sessions s) > 0 \/ totalUsers (m_sessions s) > 0 ->
     tryAutoStop s = Done tt s).
Proof.
  intro s.
  assert (Hcond :
    State_eqb (m_state s) RUNNING && m_autoStop s
      && (sessionCount (m_sessions s) =? 0)
      && (totalUsers (m_sessions s) =? 0) = true <-> vacant s).
  { unfold vacant.
    rewrite !andb_true_iff, !Z.eqb_eq, eqb_State_RUNNING. tauto. }
  assert (Hidle : ~ vacant s -> tryAutoStop s = Done tt s).
  { intro Hnot. unfold tryAutoStop, bind, get, ret.
    destruct (State_eqb (m_state s) RUNNING && m_autoStop s
              && (sessionCount (m_sessions s) =? 0)
              && (totalUsers (m_sessions s) =? 0)) eqn:E; [|reflexivity].
    exfalso. apply Hnot, Hcond. reflexivity. }
  split; [|split].
  - split.
    + intros [Hrun Hafter].
      destruct (State_eqb (m_state s) RUNNING && m_autoStop s
                && (sessionCount (m_sessions s) =? 0)
                && (totalUsers (m_sessions s) =? 0)) eqn:E.
      * apply Hcond. reflexivity.
      * exfalso.
        assert (Hsame : tryAutoStop s = Done tt s).
        { apply Hidle. intro Hv. apply Hcond in Hv. congruence. }
        rewrite Hsame in Hafter. simpl in Hafter.
        destruct Hafter; congruence.
    + intro Hv. split; [apply Hv|].
      pose proof Hv as Hv'. apply Hcond in Hv'.
      destruct Hv as [Hrun _].
      rewrite tryAutoStop_unfold, Hv'.
      apply stop_leaves_running. exact Hrun.
  - exact Hidle.
  - intros Hleft. apply Hidle. unfold vacant. lia.
Qed.

End AutoStop.

Section StatusReports.

Context {R : Type} {registry : SessionServer R}.

(** [stop()] reports no status, however it ends. *)
Lemma stop_reports_nothing :
  forall s : MultiServer R,
    status_reports (journal (final (stop s))) = status_reports (journal s).
Proof.
  intro s. open_object s. unfold_act. simpl.
  destruct state0; simpl; try reflexivity.
  - destruct server0 as [srv|]; simpl; [|reflexivity].
    destruct (totalUsers (stopAll sessions0) =? 0); reflexivity.
  - destruct (totalUsers sessions0 =? 0); reflexivity.
Qed.

(** Nor does [tryAutoStop]. *)
Lemma tryAutoStop_reports_nothing :
  forall s : MultiServer R,
    status_reports (journal (final (tryAutoStop s))) = status_reports (journal s).
Proof.
  intro s. rewrite tryAutoStop_unfold.
  destruct (State_eqb (m_state s) RUNNING && m_autoStop s
            && (sessionCount (m_sessions s) =? 0)
            && (totalUsers (m_sessions s) =? 0)); [|reflexivity].
  rewrite stop_reports_nothing. reflexivity.
Qed.

(** C6 (as the code has it).  One status report, with the registry's counts
    of that moment, is made by the acceptance of a connection that is not
    banned (after [addClient]), by the login slot, and by the
    disconnection slot (before it stops or evaluates auto-stop).  The
    [sessionEnded] slot, which is [tryAutoStop] itself, makes none. *)
Theorem status_report_on_user_events :
  forall (env : Env) (s : MultiServer R),
    (forall srv socket rest,
        m_server s = Some srv ->
        pendingConnections srv = socket :: rest ->
        isAddressBanned env (peerAddress socket) = false ->
        exists s',
          newClient env s = Done tt s' /\
          m_sessions s' = addClient (mkClient socket) (m_sessions s) /\
          status_reports (journal s')
            = status_text (m_sessions s') :: status_reports (journal s)) /\
    (exists s',
        on_userLoggedIn s = Done tt s' /\
        status_reports (journal s')
          = status_text (m_sessions s) :: status_reports (journal s)) /\
    status_reports (journal (final (on_userDisconnected s)))
      = status_text (m_sessions s) :: status_reports (journal s) /\
    status_reports (journal (final (on_sessionEnded s)))
      = status_reports (journal s) /\
    status_reports (journal (final (tryAutoStop s)))
      = status_reports (journal s).
Proof.
  intros env s. split; [|split; [|split; [|split]]].
  - intros srv socket rest Hsrv Hpending Hban.
    open_object s. unfold_act. simpl.
    rewrite Hpending. simpl. rewrite Hban. simpl.
    eexists. split; [reflexivity|]. simpl. split; reflexivity.
  - unfold on_userLoggedIn, printStatusUpdate, bind, get, perform.
    eexists. split; [reflexivity|]. reflexivity.
  - unfold on_userDisconnected, printStatusUpdate, bind at 1 2, get at 1, perform.
    unfold bind, get. simpl.
    destruct (State_eqb (m_state s) STOPPING).
    + rewrite stop_reports_nothing. reflexivity.
    + rewrite tryAutoStop_reports_nothing. reflexivity.
  - unfold on_sessionEnded. apply tryAutoStop_reports_nothing.
  - apply tryAutoStop_reports_nothing.
Qed.

End StatusReports.

Section Recording.

Context {R : Type} {registry : SessionServer R}.

(** C7. Scenario B: with the pattern ["~/rec/%d %t session %i.dprec"], home
    directory [/home/u], the clock at 2024-03-05 14:07:02 and session 7
    (whose id string is ["7"]), where the expanded pattern is no directory
    and the result, being absolute, is its own absolute path, the session's
    recording file is set to
    ["/home/u/rec/2024-03-05 14.07.02 session 7.dprec"]. *)
Theorem recording_path_scenario_B :
  forall (env : Env) (s : MultiServer R),
    RecordingPath env = "~/rec/%d %t session %i.dprec"%string ->
    HOME env = "/home/u"%string ->
    currentDateTime env = mkDateTime 2024 3 5 14 7 2 ->
    sessionIdString env 7 = "7"%string ->
    isDir env "/home/u/rec/%d %t session %i.dprec" = false ->
    absoluteFilePath env "/home/u/rec/2024-03-05 14.07.02 session 7.dprec"
      = "/home/u/rec/2024-03-05 14.07.02 session 7.dprec"%string ->
    exists s',
      assignRecording env (mkSession 7) s = Done tt s' /\
      effects_of s s'
        [SetRecordingFile (mkSession 7)
           "/home/u/rec/2024-03-05 14.07.02 session 7.dprec"].
Proof.
  intros env s Hpattern Hhome Hnow Hid Hdir Habs.
  unfold assignRecording. rewrite Hpattern, Hhome, Hnow. simpl.
  rewrite Hdir. rewrite Hid.
  change (QString.replace _ "%i" "7")
    with "/home/u/rec/2024-03-05 14.07.02 session 7.dprec"%string.
  rewrite Habs.
  eexists. split; [reflexivity|]. reflexivity.
Qed.

End Recording.

Section Lifecycle.

Context {R : Type} {registry : SessionServer R}.

Lemma final_run_cons :
  forall (env : Env) (e : Event R) (rest : list (Env * Event R)) (s : MultiServer R),
    final (run ((env, e) :: rest) s)
    = match deliver env e s with
      | Done _ s' => final (run rest s')
      | Crash _ s' => s'
      end.
Proof.
  intros. simpl. unfold bind. destruct (deliver env e s); reflexivity.
Qed.

(** One event never moves the state backwards, however it ends. *)
Lemma deliver_rank :
  forall (env : Env) (e : Event R) (s : MultiServer R),
    (State_rank (m_state s)
     <= State_rank (m_state (final (deliver env e s))))%nat.
Proof.
  intros env e s. open_object s.
  destruct e; unfold deliver; unfold on_sessionCreated, assignRecording;
    unfold_act; all_cases; try lia;
    destruct state0; simpl in *; try discriminate; lia.
Qed.

(** One event keeps the emission count in step with the state. *)
Lemma deliver_notified :
  forall (env : Env) (e : Event R) (s : MultiServer R),
    notified_iff_stopped s ->
    notified_iff_stopped (final (deliver env e s)).
Proof.
  intros env e s. unfold notified_iff_stopped. open_object s.
  destruct e; unfold deliver; unfold on_sessionCreated, assignRecording;
    unfold_act; all_cases; intro Hinv; try exact Hinv;
    destruct state0; simpl in *; try discriminate; try exact Hinv;
    try (rewrite Hinv; reflexivity).
Qed.

Lemma run_rank :
  forall (script : list (Env * Event R)) (s : MultiServer R),
    (State_rank (m_state s)
     <= State_rank (m_state (final (run script s))))%nat.
Proof.
  induction script as [|[env e] rest IH]; intro s.
  - simpl. lia.
  - rewrite final_run_cons.
    pose proof (deliver_rank env e s) as Hstep.
    destruct (deliver env e s) as [[] s'|f s']; simpl in Hstep.
    + specialize (IH s'). lia.
    + exact Hstep.
Qed.

Lemma run_notified :
  forall (script : list (Env * Event R)) (s : MultiServer R),
    notified_iff_stopped s ->
    notified_iff_stopped (final (run script s)).
Proof.
  induction script as [|[env e] rest IH]; intros s Hinv.
  - exact Hinv.
  - rewrite final_run_cons.
    pose proof (deliver_notified env e s Hinv) as Hstep.
    destruct (deliver env e s) as [[] s'|f s']; simpl in Hstep.
    + apply IH. exact Hstep.
    + exact Hstep.
Qed.

(** [stop()] while draining or stopped returns; it stays in that part of
    the lifecycle, keeps the emission count in step, and once Stopped
    changes nothing. *)
Lemma stop_when_stopping_or_stopped :
  forall s : MultiServer R,
    stopping_or_stopped s ->
    notified_iff_stopped s ->
    exists s',
      stop s = Done tt s' /\
      stopping_or_stopped s' /\
      notified_iff_stopped s' /\
      (m_state s = STOPPED -> s' = s).
Proof.
  intros s Hphase Hinv.
  unfold stopping_or_stopped, notified_iff_stopped in *.
  open_object s. unfold_act. simpl.
  destruct Hphase as [-> | ->]; simpl in *.
  - destruct (totalUsers sessions0 =? 0); simpl.
    + eexists. split; [reflexivity|]. simpl.
      split; [right; reflexivity|]. split; [|discriminate].
      rewrite Hinv. reflexivity.
    + eexists. split; [reflexivity|]. simpl.
      split; [left; reflexivity|]. split; [exact Hinv|discriminate].
  - eexists. split; [reflexivity|]. simpl.
    split; [right; reflexivity|]. split; [exact Hinv|reflexivity].
Qed.

Lemma stop_times_when_stopping_or_stopped :
  forall (n : nat) (s : MultiServer R),
    stopping_or_stopped s ->
    notified_iff_stopped s ->
    exists s',
      stop_times n s = Done tt s' /\
      stopping_or_stopped s' /\
      notified_iff_stopped s' /\
      (m_state s = STOPPED -> s' = s).
Proof.
  induction n as [|n IH]; intros s Hphase Hinv.
  - exists s. simpl. unfold ret. auto.
  - destruct (stop_when_stopping_or_stopped s Hphase Hinv)
      as (s1 & Hstop & Hphase1 & Hinv1 & Hsame1).
    destruct (IH s1 Hphase1 Hinv1) as (s2 & Hrest & Hphase2 & Hinv2 & Hsame2).
    exists s2. simpl. unfold bind. rewrite Hstop.
    repeat split; auto.
    intro Hst. specialize (Hsame1 Hst). subst s1. auto.
Qed.

Lemma notified_at_most_once :
  forall s : MultiServer R,
    notified_iff_stopped s ->
    (notifications (journal s) <= 1)%nat /\
    (notifications (journal s) = 1%nat <-> m_state s = STOPPED).
Proof.
  intros s Hinv. unfold notified_iff_stopped in Hinv.
  destruct (m_state s); simpl in Hinv; rewrite Hinv;
    (split; [lia | split; [discriminate || reflexivity | discriminate || reflexivity]]).
Qed.

(** C3. In every run of a freshly constructed server, whatever the calls,
    the signals and the environment of each moment: [serverStopped] has
    been emitted at most once, and exactly once precisely when the state
    is Stopped.  From a state that is Stopping or Stopped, any number of
    further [stop()] calls return normally, emit no second notification,
    and once Stopped change nothing. *)
Theorem stop_idempotent_single_notification :
  forall (sessions : R) (script : list (Env * Event R)) (n : nat),
    let s := final (run script (MultiServer_new sessions)) in
    (notifications (journal s) <= 1)%nat /\
    (notifications (journal s) = 1%nat <-> m_state s = STOPPED) /\
    (stopping_or_stopped s ->
     exists s',
       stop_times n s = Done tt s' /\
       stopping_or_stopped s' /\
       (notifications (journal s') <= 1)%nat /\
       (notifications (journal s') = 1%nat <-> m_state s' = STOPPED) /\
       (m_state s = STOPPED -> s' = s)).
Proof.
  intros sessions script n s.
  assert (Hinv : notified_iff_stopped s).
  { apply run_notified. reflexivity. }
  destruct (notified_at_most_once s Hinv) as [Hle Hiff].
  split; [exact Hle|]. split; [exact Hiff|].
  intro Hphase.
  destruct (stop_times_when_stopping_or_stopped n s Hphase Hinv)
    as (s' & Hstops & Hphase' & Hinv' & Hsame).
  destruct (notified_at_most_once s' Hinv') as [Hle' Hiff'].
  exists s'. auto.
Qed.

(** C8. The state only moves in the direction NotStarted, Running,
    Stopping, Stopped: no call and no signal, from any state and however
    it ends, leaves the object in an earlier state than it found it, and
    so no run ever does. *)
Theorem state_only_moves_forward :
  forall (env : Env) (e : Event R) (script : list (Env * Event R))
         (s : MultiServer R),
    (State_rank (m_state s)
     <= State_rank (m_state (final (deliver env e s))))%nat /\
    (State_rank (m_state s)
     <= State_rank (m_state (final (run script s))))%nat.
Proof.
  intros env e script s. split.
  - apply deliver_rank.
  - apply run_rank.
Qed.

End Lifecycle.

(** * Further properties of the code *)

Section StartupMore.

Context {R : Type} {registry : SessionServer R}.

(** [start] returns true exactly when it is called in NotStarted, the
    listener can be constructed and [listen] succeeds; the object is then
    Running with a listening listener, a TLS one exactly when both the
    certificate and the key path are set. *)
Theorem start_returns_true_iff :
  forall (env : Env) (s : MultiServer R) (port : Z) (address : QHostAddress),
    (returned (start env port address s) = Some true <->
     m_state s = NOT_STARTED /\
     listener_constructible env s = true /\
     listen env address port = true) /\
    (returned (start env port address s) = Some true ->
     m_state (final (start env port address s)) = RUNNING /\
     m_server (final (start env port address s))
       = Some (mkServer (wants_tls s) true []) /\
     m_sessions (final (start env port address s)) = m_sessions s).
Proof.
  intros env s port address.
  unfold listener_constructible, wants_tls. open_object s.
  unfold_act. simpl.
  destruct state0; simpl;
    try (split; [split; [discriminate | intros (H & _); discriminate H]
                | discriminate]).
  destruct (QString.isEmpty cert0), (QString.isEmpty key0); simpl;
    try destruct (isValidCert env cert0 key0); simpl;
    destruct (listen env address port); simpl;
    (split; [split; [intro H; try discriminate H; auto
                    | intros (_ & H1 & H2);
                      try discriminate H1; try discriminate H2; reflexivity]
            | intro H; try discriminate H; auto]).
Qed.

(** [startFd] returns true exactly when it is called in NotStarted, the
    listener can be constructed and the descriptor is adopted; the object
    is then Running with a listening listener. *)
Theorem startFd_returns_true_iff :
  forall (env : Env) (s : MultiServer R) (fd : Z),
    (returned (startFd env fd s) = Some true <->
     m_state s = NOT_STARTED /\
     listener_constructible env s = true /\
     setSocketDescriptor env fd = true) /\
    (returned (startFd env fd s) = Some true ->
     m_state (final (startFd env fd s)) = RUNNING /\
     m_server (final (startFd env fd s))
       = Some (mkServer (wants_tls s) true []) /\
     m_sessions (final (startFd env fd s)) = m_sessions s).
Proof.
  intros env s fd.
  unfold listener_constructible, wants_tls. open_object s.
  unfold_act. simpl.
  destruct state0; simpl;
    try (split; [split; [discriminate | intros (H & _); discriminate H]
                | discriminate]).
  destruct (QString.isEmpty cert0), (QString.isEmpty key0); simpl;
    try destruct (isValidCert env cert0 key0); simpl;
    destruct (setSocketDescriptor env fd); simpl;
    (split; [split; [intro H; try discriminate H; auto
                    | intros (_ & H1 & H2);
                      try discriminate H1; try discriminate H2; reflexivity]
            | intro H; try discriminate H; auto]).
Qed.

(** A [startFd] made in NotStarted whose listener is constructed and whose
    descriptor cannot be adopted returns false, logs the fixed error line,
    deletes the listener, clears [m_server] and puts [m_state] back to
    NOT_STARTED; no listener object is left alive. *)
Theorem startFd_descriptor_failure_reverts :
  forall (env : Env) (s : MultiServer R) (fd : Z),
    m_state s = NOT_STARTED ->
    listener_constructible env s = true ->
    setSocketDescriptor env fd = false ->
    exists s' : MultiServer R,
      startFd env fd s = Done false s' /\
      m_state s' = NOT_STARTED /\
      m_server s' = None /\
      m_sessions s' = m_sessions s /\
      effects_of s s'
        [DeleteServer;
         LogError [Str "Couldn't set server socket descriptor!"];
         SetSocketDescriptor fd; ConnectNewConnection;
         if wants_tls s
         then NewSslServer (m_sslCertFile s) (m_sslKeyFile s)
         else NewTcpServer] /\
      live_listeners (journal s') = live_listeners (journal s).
Proof.
  intros env s fd Hst Hbuilt Hfd.
  unfold listener_constructible, wants_tls in *. open_object s.
  unfold_act. simpl.
  destruct (QString.isEmpty cert0), (QString.isEmpty key0); simpl in *;
    try rewrite Hbuilt; simpl; rewrite Hfd; simpl;
    (eexists; split; [reflexivity|]; simpl;
     split; [reflexivity|]; split; [reflexivity|]; split; [reflexivity|];
     split; [reflexivity|]; lia).
Qed.

(** [start] and [startFd] outside NotStarted fail their assertion before
    touching anything: the object is left exactly as it was. *)
Theorem start_outside_not_started_asserts :
  forall (env : Env) (s : MultiServer R) (port fd : Z) (address : QHostAddress),
    m_state s <> NOT_STARTED ->
    start env port address s = Crash AssertionFailed s /\
    startFd env fd s = Crash AssertionFailed s.
Proof.
  intros env s port fd address Hst. open_object s. unfold_act. simpl.
  destruct state0; simpl; try (split; reflexivity).
  exfalso. apply Hst. reflexivity.
Qed.

(** With only one of the certificate and key paths set (or none),
    [createServer] builds a plain TCP listener and never consults the
    certificate check: no TLS, whatever the environment says about the
    pair. *)
Theorem createServer_incomplete_tls_material_is_plain :
  forall (env : Env) (s : MultiServer R),
    wants_tls s = false ->
    exists s' : MultiServer R,
      createServer env s = Done true s' /\
      m_server s' = Some (mkServer false false []) /\
      m_state s' = m_state s /\
      effects_of s s' [ConnectNewConnection; NewTcpServer].
Proof.
  intros env s Htls. unfold wants_tls in Htls. open_object s.
  unfold_act. simpl. rewrite Htls. simpl.
  eexists. split; [reflexivity|]. simpl. auto.
Qed.

(** A failed bind leaves the server startable: a later [start] on an
    address that can be bound succeeds as a first [start] would, and the
    one listener alive afterwards is the second. *)
Theorem start_can_be_retried_after_bind_failure :
  forall (env env' : Env) (s : MultiServer R) (port port' : Z)
         (address address' : QHostAddress),
    m_state s = NOT_STARTED ->
    listener_constructible env s = true ->
    listen env address port = false ->
    listener_constructible env' s = true ->
    listen env' address' port' = true ->
    exists s1 s2 : MultiServer R,
      start env port address s = Done false s1 /\
      start env' port' address' s1 = Done true s2 /\
      m_state s2 = RUNNING /\
      m_server s2 = Some (mkServer (wants_tls s) true []) /\
      live_listeners (journal s2) = live_listeners (journal s) + 1.
Proof.
  intros env env' s port port' address address' Hst Hb Hl Hb' Hl'.
  unfold listener_constructible, wants_tls in *. open_object s.
  unfold_act. simpl.
  destruct (QString.isEmpty cert0) eqn:Hc, (QString.isEmpty key0) eqn:Hk;
    simpl in *; try rewrite Hb; simpl; rewrite Hl; simpl;
    (do 2 eexists; split; [reflexivity|]; simpl;
     rewrite ?Hc, ?Hk; simpl; try rewrite Hb'; simpl; rewrite Hl'; simpl;
     split; [reflexivity|]; simpl;
     split; [reflexivity|]; split; [reflexivity|]; lia).
Qed.

(** After a [start] that failed on the certificate the object cannot be
    used again: every further [start] or [startFd] fails its assertion,
    and [stop()] sets Stopping and then calls through the null [m_server]. *)
Theorem after_certificate_failure_unusable :
  forall (env : Env) (s : MultiServer R) (port : Z) (address : QHostAddress),
    m_state s = NOT_STARTED ->
    m_server s = None ->
    wants_tls s = true ->
    isValidCert env (m_sslCertFile s) (m_sslKeyFile s) = false ->
    exists s1 : MultiServer R,
      start env port address s = Done false s1 /\
      (forall env' port' fd' address',
          start env' port' address' s1 = Crash AssertionFailed s1 /\
          startFd env' fd' s1 = Crash AssertionFailed s1) /\
      (exists s2 : MultiServer R,
          stop s1 = Crash NullPointer s2 /\
          m_state s2 = STOPPING /\
          notifications (journal s2) = notifications (journal s)).
Proof.
  intros env s port address Hst Hsrv Htls Hv.
  unfold wants_tls in Htls. open_object s.
  unfold_act. simpl. rewrite Htls. simpl. rewrite Hv. simpl.
  eexists. split; [reflexivity|]. split.
  - intros. split; reflexivity.
  - simpl. eexists. split; [reflexivity|]. simpl. split; reflexivity.
Qed.

End StartupMore.

Section Draining.

Context {R : Type} {registry : SessionServer R}.

(** [stop()] on a running server whose registry still reports users after
    [stopAll] closes the listener (its pending connections are dropped),
    invokes [stopAll] and waits in Stopping: nothing is emitted yet. *)
Theorem stop_with_users_waits_in_stopping :
  forall (s : MultiServer R) (srv : QTcpServer),
    m_state s = RUNNING ->
    m_server s = Some srv ->
    totalUsers (stopAll (m_sessions s)) <> 0 ->
    exists s' : MultiServer R,
      stop s = Done tt s' /\
      m_state s' = STOPPING /\
      m_server s' = Some (mkServer (tls srv) false []) /\
      m_sessions s' = stopAll (m_sessions s) /\
      effects_of s s'
        [StopAll; CloseServer;
         LogInfo [Str "Stopping server and kicking out";
                  Num (totalUsers (m_sessions s)); Str "users..."]].
Proof.
  intros s srv Hst Hsrv Husers. open_object s. unfold_act. simpl.
  apply Z.eqb_neq in Husers. rewrite Husers. simpl.
  eexists. split; [reflexivity|]. simpl. auto.
Qed.

(** The drain: while Stopping, each [userDisconnected] reports the status
    and re-runs [stop()], which completes (Stopped, [serverStopped]
    emitted) exactly when the registry reports no user left, and otherwise
    leaves the server in Stopping; the listener and [stopAll] are not
    touched again. *)
Theorem userDisconnected_while_stopping :
  forall s : MultiServer R,
    m_state s = STOPPING ->
    exists s' : MultiServer R,
      on_userDisconnected s = Done tt s' /\
      m_server s' = m_server s /\
      m_sessions s' = m_sessions s /\
      (totalUsers (m_sessions s) = 0 ->
       m_state s' = STOPPED /\
       effects_of s s'
         [EmitServerStopped; LogInfo [Str "Server stopped."];
          NotifyStatus (status_text (m_sessions s))]) /\
      (totalUsers (m_sessions s) <> 0 ->
       m_state s' = STOPPING /\
       effects_of s s' [NotifyStatus (status_text (m_sessions s))]).
Proof.
  intros s Hst. open_object s. unfold_act. simpl.
  destruct (totalUsers sessions0 =? 0) eqn:E; simpl.
  - eexists. split; [reflexivity|]. simpl.
    split; [reflexivity|]. split; [reflexivity|]. split.
    + intros _. split; reflexivity.
    + intro H. apply Z.eqb_eq in E. contradiction.
  - eexists. split; [reflexivity|]. simpl.
    split; [reflexivity|]. split; [reflexivity|]. split.
    + intro H. apply Z.eqb_neq in E. contradiction.
    + intros _. split; reflexivity.
Qed.

(** Socket activation: when the last user leaves a running server that has
    auto-stop on and no session, the [userDisconnected] slot alone reports
    the status, closes the listener, stops the registry and, the registry
    staying empty, emits [serverStopped]. *)
Theorem userDisconnected_autostops_vacant_server :
  forall (s : MultiServer R) (srv : QTcpServer),
    vacant s ->
    m_server s = Some srv ->
    totalUsers (stopAll (m_sessions s)) = 0 ->
    exists s' : MultiServer R,
      on_userDisconnected s = Done tt s' /\
      m_state s' = STOPPED /\
      m_server s' = Some (mkServer (tls srv) false []) /\
      effects_of s s'
        [EmitServerStopped; LogInfo [Str "Server stopped."];
         StopAll; CloseServer;
         LogInfo [Str "Stopping server and kicking out"; Num 0; Str "users..."];
         LogInfo [Str "Autostopping due to lack of sessions"];
         NotifyStatus (status_text (m_sessions s))].
Proof.
  intros s srv (Hst & Hauto & Hsess & Husers) Hsrv Hafter.
  open_object s. unfold_act. simpl.
  rewrite Hsess, Husers. simpl. rewrite Hafter. simpl.
  eexists. split; [reflexivity|]. simpl.
  split; [reflexivity|]. split; [reflexivity|].
  rewrite Husers. reflexivity.
Qed.

End Draining.

Section Runs.

Context {R : Type} {registry : SessionServer R}.

Lemma deliver_never_banned :
  forall (banned : QHostAddress -> bool) (env : Env) (e : Event R)
         (s : MultiServer R),
    (forall a, isAddressBanned env a = banned a) ->
    never_banned banned (journal s) ->
    never_banned banned (journal (final (deliver env e s))).
Proof.
  intros banned env e s Henv. unfold never_banned. open_object s.
  destruct e; unfold deliver; unfold on_sessionCreated, assignRecording;
    unfold_act; all_cases; intro Hinv; try exact Hinv.
  all: constructor; [|exact Hinv].
  all: simpl; rewrite <- Henv; assumption.
Qed.

(** Admission control over whole runs: whatever happens to a freshly
    constructed server, no client that was handed to the registry came
    from an address the ban list of its environments holds. *)
Theorem run_never_admits_banned :
  forall (banned : QHostAddress -> bool) (sessions : R)
         (script : list (Env * Event R)),
    bans banned script ->
    never_banned banned
      (journal (final (run script (MultiServer_new sessions)))).
Proof.
  intros banned sessions script Hbans.
  assert (Hgen : forall s : MultiServer R,
             never_banned banned (journal s) ->
             never_banned banned (journal (final (run script s)))).
  { induction Hbans as [|[env e] rest Henv _ IH]; intros s Hinv.
    - exact Hinv.
    - rewrite final_run_cons.
      pose proof (deliver_never_banned banned env e s Henv Hinv) as Hstep.
      destruct (deliver env e s) as [[] s'|f s']; simpl in Hstep.
      + apply IH. exact Hstep.
      + exact Hstep. }
  apply Hgen. constructor.
Qed.

(** One event, in an environment that rejects no certificate, keeps the
    listener in step with the state and the listener objects accounted
    for, and does not call through a null pointer. *)
Lemma deliver_keeps_listener :
  forall (env : Env) (e : Event R) (s : MultiServer R),
    (forall cert key, isValidCert env cert key = true) ->
    listener_matches_state s = true ->
    owns_live_listeners s ->
    listener_matches_state (final (deliver env e s)) = true /\
    owns_live_listeners (final (deliver env e s)) /\
    (forall s', deliver env e s <> Crash NullPointer s').
Proof.
  intros env e s Hcert Hmatch Hlive.
  unfold listener_matches_state, owns_live_listeners in *.
  open_object s.
  destruct state0, server0 as [[secure listening pending]|];
    simpl in Hmatch; try discriminate Hmatch;
    try (destruct listening; simpl in Hmatch; try discriminate Hmatch);
    try (destruct pending; simpl in Hmatch; try discriminate Hmatch);
    destruct e; unfold deliver; unfold on_sessionCreated, assignRecording;
    unfold_act; simpl; rewrite ?Hcert; all_cases;
    (split; [reflexivity | split; [simpl in *; lia | discriminate]]).
Qed.

Lemma run_keeps_listener :
  forall (script : list (Env * Event R)) (s : MultiServer R),
    certificates_validate script ->
    listener_matches_state s = true ->
    owns_live_listeners s ->
    listener_matches_state (final (run script s)) = true /\
    owns_live_listeners (final (run script s)) /\
    (forall s', run script s <> Crash NullPointer s').
Proof.
  intros script s Hcerts. revert s.
  induction Hcerts as [|[env e] rest Hcert _ IH]; intros s Hmatch Hlive.
  - simpl. unfold ret. split; [exact Hmatch|]. split; [exact Hlive|]. discriminate.
  - destruct (deliver_keeps_listener env e s Hcert Hmatch Hlive)
      as (Hmatch' & Hlive' & Hsafe).
    rewrite final_run_cons. simpl run. unfold bind.
    destruct (deliver env e s) as [[] s1|f s1]; simpl in Hmatch', Hlive'.
    + apply IH; assumption.
    + split; [exact Hmatch'|]. split; [exact Hlive'|]. exact Hsafe.
Qed.

(** As long as no certificate is rejected, a run of a freshly constructed
    server keeps its listener in step with its state (none before the
    start, listening while Running, closed from Stopping on, no accepted
    connection left unhandled) and owns exactly the listener objects that
    are alive: at most one, none leaked. *)
Theorem run_keeps_listener_in_step :
  forall (sessions : R) (script : list (Env * Event R)),
    certificates_validate script ->
    listener_matches_state (final (run script (MultiServer_new sessions))) = true /\
    owns_live_listeners (final (run script (MultiServer_new sessions))).
Proof.
  intros sessions script Hcerts.
  destruct (run_keeps_listener script (MultiServer_new sessions) Hcerts)
    as (Hmatch & Hlive & _); try reflexivity.
  split; assumption.
Qed.

(** As long as no certificate is rejected, no run of a freshly constructed
    server ever calls through a null [m_server]: the only way such a run
    can die is the assertion of a [start] made outside NotStarted. *)
Theorem run_never_dereferences_null :
  forall (sessions : R) (script : list (Env * Event R)),
    certificates_validate script ->
    never_null_dereference (run script (MultiServer_new sessions)).
Proof.
  intros sessions script Hcerts.
  destruct (run_keeps_listener script (MultiServer_new sessions) Hcerts)
    as (_ & _ & Hsafe); try reflexivity.
  destruct (run script (MultiServer_new sessions)) as [a s'|f s'] eqn:Hrun;
    simpl; [exact I|].
  destruct f; [exact I|].
  apply (Hsafe s'). reflexivity.
Qed.

End Runs.

Section Texts.

(** Replacing what does not occur changes nothing. *)
Lemma replace_absent :
  forall s before after : string,
    contains s before = false ->
    QString.replace s before after = s.
Proof.
  intros s before after Habsent. unfold QString.replace.
  destruct (QString.isEmpty before); [reflexivity|].
  induction s as [|c rest IH]; [reflexivity|].
  cbn [contains] in Habsent. apply orb_false_iff in Habsent as [Hhere Hrest].
  cbn [QString.replace_from]. rewrite Hhere, (IH Hrest). reflexivity.
Qed.

(** A placeholder is not found inside text without percent signs: the
    replacement passes over such a prefix. *)
Lemma replace_skips_clean_prefix :
  forall (tail after p q : string),
    no_percent p = true ->
    QString.replace (String.append p q) (String "%" tail) after
    = String.append p (QString.replace q (String "%" tail) after).
Proof.
  intros tail after p q Hclean. unfold QString.replace. simpl QString.isEmpty.
  cbv iota.
  induction p as [|c rest IH]; [reflexivity|].
  simpl in Hclean. apply andb_true_iff in Hclean as [Hc Hrest].
  cbn [String.append QString.replace_from String.prefix].
  destruct (ascii_dec "%" c) as [Heq|Hneq].
  - subst c. discriminate Hc.
  - rewrite (IH Hrest). reflexivity.
Qed.

Lemma no_percent_append :
  forall a b : string,
    no_percent (String.append a b) = no_percent a && no_percent b.
Proof.
  induction a as [|c a IH]; intro b; simpl; [reflexivity|].
  rewrite IH, andb_assoc. reflexivity.
Qed.

Lemma no_percent_digits :
  forall d : Decimal.uint, no_percent (NilEmpty.string_of_uint d) = true.
Proof. induction d; simpl; auto. Qed.

Lemma no_percent_number :
  forall n : Z, no_percent (QString.number n) = true.
Proof.
  intro n. unfold QString.number, NilZero.string_of_int, NilZero.string_of_uint.
  destruct (Z.to_int n) as [d|d]; destruct d; simpl;
    try reflexivity; apply no_percent_digits.
Qed.

Lemma no_percent_padded :
  forall (width : nat) (n : Z), no_percent (QString.padded width n) = true.
Proof.
  intros width n. unfold QString.padded.
  rewrite no_percent_append, no_percent_number, andb_true_r.
  induction (width - String.length (QString.number n))%nat; simpl; auto.
Qed.

Lemma no_percent_date :
  forall t : QDateTime, no_percent (toString t "yyyy-MM-dd") = true.
Proof.
  intro t. cbn [toString].
  repeat (rewrite no_percent_append, no_percent_padded;
          cbn [no_percent Ascii.eqb Bool.eqb negb andb]).
  reflexivity.
Qed.

Lemma no_percent_time :
  forall t : QDateTime, no_percent (toString t "HH.mm.ss") = true.
Proof.
  intro t. cbn [toString].
  repeat (rewrite no_percent_append, no_percent_padded;
          cbn [no_percent Ascii.eqb Bool.eqb negb andb]).
  reflexivity.
Qed.

Lemma append_associative :
  forall a b c : string,
    String.append (String.append a b) c = String.append a (String.append b c).
Proof.
  induction a as [|x a IH]; intros b c; simpl; [reflexivity|].
  rewrite IH. reflexivity.
Qed.

(** The three expansions applied to the default pattern behind a
    directory prefix without percent signs. *)
Lemma expand_default_pattern :
  forall prefix date time session_id : string,
    no_percent prefix = true ->
    no_percent date = true ->
    no_percent time = true ->
    QString.replace
      (QString.replace
         (QString.replace (String.append prefix "%d %t session %i.dprec")
            "%d" date)
         "%t" time)
      "%i" session_id
    = String.append prefix (default_recording_name date time session_id).
Proof.
  intros prefix date time session_id Hprefix Hdate Htime.
  rewrite (replace_skips_clean_prefix "d" date prefix) by assumption.
  change (QString.replace "%d %t session %i.dprec" "%d" date)
    with (String.append date " %t session %i.dprec").
  rewrite (replace_skips_clean_prefix "t" time prefix) by assumption.
  rewrite (replace_skips_clean_prefix "t" time date) by assumption.
  change (QString.replace " %t session %i.dprec" "%t" time)
    with (String.append " " (String.append time " session %i.dprec")).
  rewrite (replace_skips_clean_prefix "i" session_id prefix) by assumption.
  rewrite (replace_skips_clean_prefix "i" session_id date) by assumption.
  rewrite (replace_skips_clean_prefix "i" session_id " ") by reflexivity.
  rewrite (replace_skips_clean_prefix "i" session_id time) by assumption.
  reflexivity.
Qed.

(** [QDir::filePath] puts the name behind the directory, with one slash
    between them. *)
Lemma QDir_filePath_prefix :
  forall dir : string,
    QString.isEmpty dir = false ->
    exists prefix : string,
      no_percent prefix = no_percent dir /\
      forall name, QDir_filePath dir name = String.append prefix name.
Proof.
  intros dir Hdir. unfold QDir_filePath. rewrite Hdir.
  destruct (QString.startsWith
              (QString.mid dir (Nat.pred (String.length dir))) "/").
  - exists dir. split; [reflexivity|]. reflexivity.
  - exists (String.append dir "/"). split.
    + rewrite no_percent_append. simpl. apply andb_true_r.
    + intro name. rewrite append_associative. reflexivity.
Qed.

End Texts.

Section RecordingMore.

Context {R : Type} {registry : SessionServer R}.

(** The status line reads "<users> users and <sessions> sessions", both
    counts in decimal, for every registry: the text put in for the first
    marker can never be taken for the second. *)
Theorem status_text_format :
  forall r : R,
    status_text r
    = String.append (QString.number (totalUsers r))
        (String.append " users and "
           (String.append (QString.number (sessionCount r)) " sessions")).
Proof.
  intro r. unfold status_text, QString.arg2.
  change (QString.replace "%1 users and %2 sessions" "%1"
            (QString.number (totalUsers r)))
    with (String.append (QString.number (totalUsers r))
            " users and %2 sessions").
  rewrite (replace_skips_clean_prefix "2") by apply no_percent_number.
  reflexivity.
Qed.

(** A recording pattern that is not empty, does not start with ["~/"],
    names no directory and holds none of the placeholders [%d], [%t],
    [%i] is used as it stands; in particular the [%h] that the function's
    documentation lists for the time is not a placeholder of the code. *)
Theorem recording_pattern_without_placeholders_is_kept :
  forall (env : Env) (session : Session) (s : MultiServer R),
    QString.isEmpty (RecordingPath env) = false ->
    QString.startsWith (RecordingPath env) "~/" = false ->
    isDir env (RecordingPath env) = false ->
    contains (RecordingPath env) "%d" = false ->
    contains (RecordingPath env) "%t" = false ->
    contains (RecordingPath env) "%i" = false ->
    exists s' : MultiServer R,
      assignRecording env session s = Done tt s' /\
      effects_of s s'
        [SetRecordingFile session (absoluteFilePath env (RecordingPath env))].
Proof.
  intros env session s Hset Hhome Hdir Hd Ht Hi.
  unfold assignRecording. rewrite Hset, Hhome, Hdir.
  cbv beta iota zeta.
  rewrite (replace_absent _ "%d" _ Hd), (replace_absent _ "%t" _ Ht),
    (replace_absent _ "%i" _ Hi).
  eexists. split; reflexivity.
Qed.

(** A pattern that starts with ["~/"] has the tilde, and only it, replaced
    by the value of HOME; when the result names no directory and holds no
    placeholder it is the recording file. *)
Theorem recording_pattern_home_is_expanded :
  forall (env : Env) (session : Session) (s : MultiServer R) (rest : string),
    RecordingPath env = String "~" (String "/" rest) ->
    isDir env (String.append (HOME env) (String "/" rest)) = false ->
    contains (String.append (HOME env) (String "/" rest)) "%d" = false ->
    contains (String.append (HOME env) (String "/" rest)) "%t" = false ->
    contains (String.append (HOME env) (String "/" rest)) "%i" = false ->
    exists s' : MultiServer R,
      assignRecording env session s = Done tt s' /\
      effects_of s s'
        [SetRecordingFile session
           (absoluteFilePath env (String.append (HOME env) (String "/" rest)))].
Proof.
  intros env session s rest Hpattern Hdir Hd Ht Hi.
  unfold assignRecording. rewrite Hpattern.
  change (QString.isEmpty (String "~" (String "/" rest))) with false.
  replace (QString.startsWith (String "~" (String "/" rest)) "~/") with true
    by (destruct rest; reflexivity).
  change (QString.mid (String "~" (String "/" rest)) 1) with (String "/" rest).
  cbv beta iota zeta. rewrite Hdir.
  rewrite (replace_absent _ "%d" _ Hd), (replace_absent _ "%t" _ Ht),
    (replace_absent _ "%i" _ Hi).
  eexists. split; reflexivity.
Qed.

(** A recording path that names a directory (no percent sign in it, its
    default file path already absolute) gets the default file name in that
    directory: "<date> <time> session <id>.dprec", with the date as
    yyyy-MM-dd and the time as HH.mm.ss of the moment, for every clock
    and every session. *)
Theorem recording_directory_gets_default_name :
  forall (env : Env) (session : Session) (s : MultiServer R),
    QString.isEmpty (RecordingPath env) = false ->
    QString.startsWith (RecordingPath env) "~/" = false ->
    isDir env (RecordingPath env) = true ->
    no_percent (RecordingPath env) = true ->
    absoluteFilePath env
      (QDir_filePath (RecordingPath env) "%d %t session %i.dprec")
    = QDir_filePath (RecordingPath env) "%d %t session %i.dprec" ->
    exists s' : MultiServer R,
      assignRecording env session s = Done tt s' /\
      effects_of s s'
        [SetRecordingFile session
           (absoluteFilePath env
              (QDir_filePath (RecordingPath env)
                 (default_recording_name
                    (toString (currentDateTime env) "yyyy-MM-dd")
                    (toString (currentDateTime env) "HH.mm.ss")
                    (sessionIdString env (id session)))))].
Proof.
  intros env session s Hset Hhome Hdir Hclean Habs.
  unfold assignRecording. rewrite Hset, Hhome, Hdir.
  cbv beta iota zeta. rewrite Habs.
  destruct (QDir_filePath_prefix (RecordingPath env) Hset)
    as (prefix & Hprefix & Hjoin).
  rewrite !Hjoin.
  rewrite expand_default_pattern.
  - eexists. split; reflexivity.
  - rewrite Hprefix. exact Hclean.
  - apply no_percent_date.
  - apply no_percent_time.
Qed.

(** Without a recording path nothing is recorded: the call returns the
    object as it was.  With one, whatever the filesystem and the clock
    say, exactly one recording file is set on the session and nothing
    else of the object changes. *)
Theorem assignRecording_sets_one_file_iff_configured :
  forall (env : Env) (session : Session) (s : MultiServer R),
    exists s' : MultiServer R,
      assignRecording env session s = Done tt s' /\
      (QString.isEmpty (RecordingPath env) = true -> s' = s) /\
      (QString.isEmpty (RecordingPath env) = false ->
       exists path : string,
         s' = mkMultiServer (m_sessions s) (m_server s) (m_state s)
                (m_autoStop s) (m_sslCertFile s) (m_sslKeyFile s)
                (SetRecordingFile session path :: journal s)).
Proof.
  intros env session s. unfold assignRecording.
  destruct (QString.isEmpty (RecordingPath env)).
  - exists s. split; [reflexivity|]. split; [reflexivity|discriminate].
  - eexists. split; [reflexivity|]. split; [discriminate|].
    intros _. eexists. reflexivity.
Qed.

End RecordingMore.

Section AdmissionMore.

Context {R : Type} {registry : SessionServer R}.

(** [newClient] takes the oldest pending connection.  When its peer is not
    banned, the client built on it is handed to the registry, then the
    status is reported with the counts the registry has afterwards; the
    remaining connections stay queued and the state is not touched. *)
Theorem newClient_admits_oldest_pending :
  forall (env : Env) (s : MultiServer R) (srv : QTcpServer)
         (socket : QTcpSocket) (rest : list QTcpSocket),
    m_server s = Some srv ->
    pendingConnections srv = socket :: rest ->
    isAddressBanned env (peerAddress socket) = false ->
    exists s' : MultiServer R,
      newClient env s = Done tt s' /\
      m_sessions s' = addClient (mkClient socket) (m_sessions s) /\
      m_server s' = Some (mkServer (tls srv) (isListening srv) rest) /\
      m_state s' = m_state s /\
      effects_of s s'
        [NotifyStatus
           (status_text (addClient (mkClient socket) (m_sessions s)));
         AddClient (mkClient socket);
         LogInfo [Str "Accepted new client from address";
                  Addr (peerAddress socket)]].
Proof.
  intros env s srv socket rest Hsrv Hpending Hban.
  open_object s. unfold_act. simpl.
  rewrite Hpending. simpl. rewrite Hban. simpl.
  eexists. split; [reflexivity|]. simpl.
  split; [reflexivity|]. split; [reflexivity|]. split; reflexivity.
Qed.

(** [newClient] with no listener, or with a listener that has no pending
    connection, calls through a null pointer before it has done anything:
    nothing is logged and nobody is added or kicked. *)
Theorem newClient_without_connection_dies :
  forall (env : Env) (s : MultiServer R),
    (m_server s = None \/
     exists srv, m_server s = Some srv /\ pendingConnections srv = []) ->
    newClient env s = Crash NullPointer s.
Proof.
  intros env s [Hnone | (srv & Hsrv & Hpending)];
    open_object s; unfold_act; simpl.
  - reflexivity.
  - rewrite Hpending. reflexivity.
Qed.

End AdmissionMore.

(** * Concrete instances *)

(** [stop()] on a server fresh from the constructor. *)
Lemma stop_not_started_noop_fresh : stop fresh = Done tt fresh.
Proof. apply stop_not_started_noop. reflexivity. Defined.

(** [stop()] on a listening server with an empty counting registry. *)
Lemma stop_running_without_users_completes_idle :
  exists s',
    stop running_idle = Done tt s' /\
    m_state s' = STOPPED /\
    m_server s' = Some (mkServer false false []) /\
    m_sessions s' = mkCounts 0 0 /\
    effects_of running_idle s'
      [EmitServerStopped; LogInfo [Str "Server stopped."];
       StopAll; CloseServer;
       LogInfo [Str "Stopping server and kicking out"; Num 0; Str "users..."]].
Proof.
  refine (stop_running_without_users_completes running_idle a_listener _ _ _ _).
  - reflexivity.
  - reflexivity.
  - reflexivity.
  - intros r Hr. exact Hr.
Defined.

(** [stop()] after a [start] that failed on the certificate: the state is
    Running, nobody is connected, and the call dies in Stopping. *)
Lemma stop_running_without_listener_dies_after_rejected_certificate :
  (returned (start bad_certificate_env 27750 "0.0.0.0" with_tls_material)
     = Some false /\
   m_state after_rejected_certificate = RUNNING /\
   totalUsers (m_sessions after_rejected_certificate) = 0) /\
  exists s',
    stop after_rejected_certificate = Crash NullPointer s' /\
    m_state s' = STOPPING /\
    m_sessions s' = mkCounts 0 0 /\
    notifications (journal s') = 0%nat /\
    effects_of after_rejected_certificate s'
      [LogInfo [Str "Stopping server and kicking out"; Num 0; Str "users..."]].
Proof.
  split.
  - split; [reflexivity|]. split; reflexivity.
  - refine (stop_running_without_listener_dies after_rejected_certificate _ _ _);
      reflexivity.
Defined.

(** [start] and [startFd] with TLS material that does not validate. *)
Lemma start_invalid_certificate_leaves_running_tls :
  (returned (start bad_certificate_env 27750 "0.0.0.0" with_tls_material)
     = Some false /\
   m_state (final (start bad_certificate_env 27750 "0.0.0.0" with_tls_material))
     = RUNNING /\
   m_server (final (start bad_certificate_env 27750 "0.0.0.0" with_tls_material))
     = None /\
   live_listeners
     (journal (final (start bad_certificate_env 27750 "0.0.0.0" with_tls_material)))
     = 0 + 1) /\
  (returned (startFd bad_certificate_env 3 with_tls_material) = Some false /\
   m_state (final (startFd bad_certificate_env 3 with_tls_material)) = RUNNING).
Proof.
  refine (start_invalid_certificate_leaves_running
            bad_certificate_env with_tls_material 27750 3 "0.0.0.0" _ _ _ _);
    reflexivity.
Defined.

(** [start] on a port that is already taken. *)
Lemma start_bind_failure_reverts_port_in_use :
  exists (s' : MultiServer Counts) (built : Effect),
    start port_in_use_env 27750 "0.0.0.0" fresh = Done false s' /\
    m_state s' = NOT_STARTED /\
    m_server s' = None /\
    m_sessions s' = mkCounts 0 0 /\
    effects_of fresh s'
      [DeleteServer; LogError [Str "The bound address is already in use"];
       Listen "0.0.0.0" 27750; ConnectNewConnection; built] /\
    (built = NewTcpServer \/ built = NewSslServer EmptyString EmptyString) /\
    live_listeners (journal s') = 0.
Proof.
  refine (start_bind_failure_reverts port_in_use_env fresh 27750 "0.0.0.0" _ _ _).
  - reflexivity.
  - left. reflexivity.
  - reflexivity.
Defined.

(** [newClient] when the pending connection comes from the banned address. *)
Lemma banned_peer_never_added_pending :
  exists s',
    newClient ban_env with_banned_pending = Done tt s' /\
    effects_of with_banned_pending s'
      [DisconnectKick (mkClient banned_socket) "BANNED";
       LogInfo [Str "Kicking banned client from address";
                Addr "203.0.113.7"; Str "straight away"];
       LogInfo [Str "Accepted new client from address"; Addr "203.0.113.7"]] /\
    added_clients (journal s') = [] /\
    m_sessions s' = mkCounts 0 0.
Proof.
  refine (banned_peer_never_added ban_env with_banned_pending
            (mkServer false true [banned_socket]) banned_socket [] _ _ _);
    reflexivity.
Defined.

(** Scenario B in the environment [scenario_B_env]. *)
Lemma recording_path_scenario_B_fresh :
  exists s',
    assignRecording scenario_B_env (mkSession 7) fresh = Done tt s' /\
    effects_of fresh s'
      [SetRecordingFile (mkSession 7)
         "/home/u/rec/2024-03-05 14.07.02 session 7.dprec"].
Proof.
  refine (recording_path_scenario_B scenario_B_env fresh _ _ _ _ _ _);
    reflexivity.
Defined.

(** C6, as the specification words it, fails on the [sessionEnded] slot: a
    session opens and ends on a started server, the session count goes from
    one to zero, auto-stop is evaluated (and with [autostop] on, fires and
    stops the server), and no status report is made at any point. *)
Lemma session_end_without_status_report :
  status_reports
    (journal (final (run (session_comes_and_goes false) fresh))) = [] /\
  m_state (final (run (session_comes_and_goes false) fresh)) = RUNNING /\
  status_reports
    (journal (final (run (session_comes_and_goes true) fresh))) = [] /\
  m_state (final (run (session_comes_and_goes true) fresh)) = STOPPED.
Proof. repeat split; reflexivity. Qed.

(** * Concrete instances of the further properties *)

(** [startFd] with a descriptor that cannot be adopted. *)
Lemma startFd_descriptor_failure_reverts_fresh :
  exists s' : MultiServer Counts,
    startFd bad_descriptor_env 3 fresh = Done false s' /\
    m_state s' = NOT_STARTED /\
    m_server s' = None /\
    m_sessions s' = mkCounts 0 0 /\
    effects_of fresh s'
      [DeleteServer;
       LogError [Str "Couldn't set server socket descriptor!"];
       SetSocketDescriptor 3; ConnectNewConnection; NewTcpServer] /\
    live_listeners (journal s') = 0.
Proof.
  refine (startFd_descriptor_failure_reverts bad_descriptor_env fresh 3 _ _ _);
    reflexivity.
Defined.

(** [start] and [startFd] on a server that already runs. *)
Lemma start_outside_not_started_asserts_running :
  start quiet_env 27750 "0.0.0.0" running_idle
    = Crash AssertionFailed running_idle /\
  startFd quiet_env 3 running_idle = Crash AssertionFailed running_idle.
Proof.
  refine (start_outside_not_started_asserts
            quiet_env running_idle 27750 3 "0.0.0.0" _).
  discriminate.
Defined.

(** A certificate without a key: the listener is plain TCP even where the
    certificate check would fail. *)
Lemma createServer_incomplete_tls_material_is_plain_cert_only :
  exists s' : MultiServer Counts,
    createServer bad_certificate_env with_certificate_only = Done true s' /\
    m_server s' = Some (mkServer false false []) /\
    m_state s' = NOT_STARTED /\
    effects_of with_certificate_only s' [ConnectNewConnection; NewTcpServer].
Proof.
  refine (createServer_incomplete_tls_material_is_plain
            bad_certificate_env with_certificate_only _).
  reflexivity.
Defined.

(** The port is taken at first and free at the second attempt. *)
Lemma start_can_be_retried_after_bind_failure_fresh :
  exists s1 s2 : MultiServer Counts,
    start port_in_use_env 27750 "0.0.0.0" fresh = Done false s1 /\
    start quiet_env 27751 "0.0.0.0" s1 = Done true s2 /\
    m_state s2 = RUNNING /\
    m_server s2 = Some (mkServer false true []) /\
    live_listeners (journal s2) = 0 + 1.
Proof.
  refine (start_can_be_retried_after_bind_failure
            port_in_use_env quiet_env fresh 27750 27751 "0.0.0.0" "0.0.0.0"
            _ _ _ _ _);
    reflexivity.
Defined.

(** The aftermath of a rejected certificate. *)
Lemma after_certificate_failure_unusable_tls :
  exists s1 : MultiServer Counts,
    start bad_certificate_env 27750 "0.0.0.0" with_tls_material = Done false s1 /\
    (forall env' port' fd' address',
        start env' port' address' s1 = Crash AssertionFailed s1 /\
        startFd env' fd' s1 = Crash AssertionFailed s1) /\
    (exists s2 : MultiServer Counts,
        stop s1 = Crash NullPointer s2 /\
        m_state s2 = STOPPING /\
        notifications (journal s2) = 0%nat).
Proof.
  refine (after_certificate_failure_unusable
            bad_certificate_env with_tls_material 27750 "0.0.0.0" _ _ _ _);
    reflexivity.
Defined.

(** [stop()] with two users connected. *)
Lemma stop_with_users_waits_in_stopping_busy :
  exists s' : MultiServer Counts,
    stop running_busy = Done tt s' /\
    m_state s' = STOPPING /\
    m_server s' = Some (mkServer false false []) /\
    m_sessions s' = mkCounts 2 1 /\
    effects_of running_busy s'
      [StopAll; CloseServer;
       LogInfo [Str "Stopping server and kicking out"; Num 2; Str "users..."]].
Proof.
  refine (stop_with_users_waits_in_stopping running_busy a_listener _ _ _).
  - reflexivity.
  - reflexivity.
  - discriminate.
Defined.

(** A disconnection while one user is still connected. *)
Lemma userDisconnected_while_stopping_draining :
  exists s' : MultiServer Counts,
    on_userDisconnected draining = Done tt s' /\
    m_server s' = Some (mkServer false false []) /\
    m_sessions s' = mkCounts 1 1 /\
    (1 = 0 ->
     m_state s' = STOPPED /\
     effects_of draining s'
       [EmitServerStopped; LogInfo [Str "Server stopped."];
        NotifyStatus (status_text (mkCounts 1 1))]) /\
    (1 <> 0 ->
     m_state s' = STOPPING /\
     effects_of draining s' [NotifyStatus (status_text (mkCounts 1 1))]).
Proof.
  refine (userDisconnected_while_stopping draining _). reflexivity.
Defined.

(** The last user leaves a socket-activated server. *)
Lemma userDisconnected_autostops_vacant_server_activated :
  exists s' : MultiServer Counts,
    on_userDisconnected running_vacant = Done tt s' /\
    m_state s' = STOPPED /\
    m_server s' = Some (mkServer false false []) /\
    effects_of running_vacant s'
      [EmitServerStopped; LogInfo [Str "Server stopped."];
       StopAll; CloseServer;
       LogInfo [Str "Stopping server and kicking out"; Num 0; Str "users..."];
       LogInfo [Str "Autostopping due to lack of sessions"];
       NotifyStatus (status_text (mkCounts 0 0))].
Proof.
  refine (userDisconnected_autostops_vacant_server running_vacant a_listener _ _ _).
  - repeat split.
  - reflexivity.
  - reflexivity.
Defined.

(** Two peers, one of them banned, knock at a started server. *)
Lemma run_never_admits_banned_two_peers :
  never_banned (fun a => String.eqb a "203.0.113.7")
    (journal (final (run two_peers_knock fresh))).
Proof.
  refine (run_never_admits_banned (fun a => String.eqb a "203.0.113.7")
            (mkCounts 0 0) two_peers_knock _).
  repeat constructor.
Defined.

Lemma run_keeps_listener_in_step_two_peers :
  listener_matches_state (final (run two_peers_knock fresh)) = true /\
  owns_live_listeners (final (run two_peers_knock fresh)).
Proof.
  refine (run_keeps_listener_in_step (mkCounts 0 0) two_peers_knock _).
  repeat constructor.
Defined.

(** The second [start] of a running server ends the run, on its
    assertion. *)
Lemma run_never_dereferences_null_started_twice :
  never_null_dereference (run started_twice fresh).
Proof.
  refine (run_never_dereferences_null (mkCounts 0 0) started_twice _).
  repeat constructor.
Defined.

(** The documented [%h] is left in the file name. *)
Lemma recording_pattern_without_placeholders_is_kept_h :
  exists s' : MultiServer Counts,
    assignRecording documented_time_env (mkSession 7) fresh = Done tt s' /\
    effects_of fresh s' [SetRecordingFile (mkSession 7) "/var/rec/%h.dprec"].
Proof.
  refine (recording_pattern_without_placeholders_is_kept
            documented_time_env (mkSession 7) fresh _ _ _ _ _ _);
    reflexivity.
Defined.

Lemma recording_pattern_home_is_expanded_last :
  exists s' : MultiServer Counts,
    assignRecording home_env (mkSession 7) fresh = Done tt s' /\
    effects_of fresh s' [SetRecordingFile (mkSession 7) "/home/u/last.dprec"].
Proof.
  refine (recording_pattern_home_is_expanded
            home_env (mkSession 7) fresh "last.dprec" _ _ _ _ _);
    reflexivity.
Defined.

(** Scenario C: the recording path is the directory [/home/u/rec]. *)
Lemma recording_directory_gets_default_name_rec :
  exists s' : MultiServer Counts,
    assignRecording directory_env (mkSession 7) fresh = Done tt s' /\
    effects_of fresh s'
      [SetRecordingFile (mkSession 7)
         "/home/u/rec/2024-03-05 14.07.02 session 7.dprec"].
Proof.
  refine (recording_directory_gets_default_name
            directory_env (mkSession 7) fresh _ _ _ _ _);
    reflexivity.
Defined.

(** The oldest of two pending connections is admitted. *)
Lemma newClient_admits_oldest_pending_first :
  exists s' : MultiServer Counts,
    newClient ban_env with_two_pending = Done tt s' /\
    m_sessions s' = mkCounts 1 0 /\
    m_server s' = Some (mkServer false true [banned_socket]) /\
    m_state s' = RUNNING /\
    effects_of with_two_pending s'
      [NotifyStatus "1 users and 0 sessions";
       AddClient (mkClient good_socket);
       LogInfo [Str "Accepted new client from address"; Addr "198.51.100.4"]].
Proof.
  refine (newClient_admits_oldest_pending ban_env with_two_pending
            (mkServer false true [good_socket; banned_socket])
            good_socket [banned_socket] _ _ _);
    reflexivity.
Defined.

(** [newClient] on a server that was never started. *)
Lemma newClient_without_connection_dies_fresh :
  newClient quiet_env fresh = Crash NullPointer fresh.
Proof.
  refine (newClient_without_connection_dies quiet_env fresh _).
  left. reflexivity.
Defined.
